(** * The packaging pipeline of ModularCppFramework: [tools/package-application.py]

    A shallow embedding of the packaging tool: its argument resolution, the
    clean / configure / build / package stages, the archive extraction, the
    structural package test, the publishing copy and the top-level [main]
    with its exception handlers.

    The script is stateful: it reads and writes the filesystem, runs child
    processes and prints to two streams.  The embedding threads an explicit
    [world] through a state-and-exception monad.  What the script cannot
    decide itself (what [cmake] does, what the archive libraries unpack, how
    the locale decodes text, the CPU count of the host, the name [mkdtemp]
    picks) is a variable of the section [Pipeline].

    Limits of the model.  Paths are POSIX paths: [Path_str] joins with a
    slash whatever the host is.  A [..] component is kept in a path and names
    no entry of the filesystem tree, so the model speaks for paths without
    one.  The case-insensitive match of a Windows host folds the ASCII
    letters only.  There are no symbolic links and no permission checks
    other than the execute bit of a file. *)

From Stdlib Require Import String Ascii List ZArith Lia Bool DecimalString.
Import ListNotations.
Open Scope list_scope.
Open Scope string_scope.

(** ** Strings as Python uses them here *)

(** [s.startswith(pre)] *)
Definition startswith (pre s : string) : bool := String.prefix pre s.

(** [sep.join(items)] *)
Definition join (sep : string) (items : list string) : string :=
  String.concat sep items.

(** [str(n)] for an [int] *)
Definition str_of_Z (n : Z) : string := NilZero.string_of_int (Z.to_int n).

(** [c * n] for a one-character string *)
Fixpoint str_repeat (c : ascii) (n : nat) : string :=
  match n with
  | O => EmptyString
  | S k => String c (str_repeat c k)
  end.

(** The substring of [s] that starts at its last dot, when it has one:
    [s[s.rfind('.'):]]. *)
Fixpoint from_last_dot (s : string) : option string :=
  match s with
  | EmptyString => None
  | String c r =>
      match from_last_dot r with
      | Some t => Some t
      | None => if Ascii.eqb c "." then Some s else None
      end
  end.

(** [PurePath.suffix], on the final component: with [i = name.rfind('.')],
    the result is [name[i:]] when [0 < i < len(name) - 1] and [''] otherwise. *)
Definition name_suffix (name : string) : string :=
  match name with
  | EmptyString => ""
  | String _ r =>
      match from_last_dot r with
      | Some t => if Nat.ltb 1 (String.length t) then t else ""
      | None => ""
      end
  end.

(** Shell-style matching of one path component, for the patterns the script
    uses: ['*'] matches any run of characters, ['?'] one character, anything
    else itself.  (No pattern of the script has a bracket class.) *)
Fixpoint fnmatch (pat : string) : string -> bool :=
  match pat with
  | EmptyString =>
      fun s => match s with EmptyString => true | String _ _ => false end
  | String p pat' =>
      if Ascii.eqb p "*" then
        fix star (s : string) : bool :=
          fnmatch pat' s ||
          match s with EmptyString => false | String _ s' => star s' end
      else if Ascii.eqb p "?" then
        fun s => match s with EmptyString => false | String _ s' => fnmatch pat' s' end
      else
        fun s =>
          match s with
          | EmptyString => false
          | String c s' => Ascii.eqb p c && fnmatch pat' s'
          end
  end.

(** ASCII lower-casing, which is how a case-insensitive match compares. *)
Definition lower_ascii (c : ascii) : ascii :=
  let n := nat_of_ascii c in
  if Nat.leb 65 n && Nat.leb n 90 then ascii_of_nat (n + 32) else c.

Fixpoint lower (s : string) : string :=
  match s with
  | EmptyString => EmptyString
  | String c r => String (lower_ascii c) (lower r)
  end.

(** Text-mode reading translates ["\r\n"] and ["\r"] to ["\n"]. *)
Definition LF : ascii := ascii_of_nat 10.
Definition CR : ascii := ascii_of_nat 13.

Fixpoint universal_newlines (s : string) : string :=
  match s with
  | EmptyString => EmptyString
  | String c r =>
      if Ascii.eqb c CR then
        match r with
        | String d r' =>
            if Ascii.eqb d LF then String LF (universal_newlines r')
            else String LF (universal_newlines r)
        | EmptyString => String LF EmptyString
        end
      else String c (universal_newlines r)
  end.

(** [splitlines(keepends=True)] on line feeds: [cur] is the line being read,
    reversed. *)
Fixpoint split_lines (cur : list ascii) (s : string) : list string :=
  match s with
  | EmptyString =>
      match cur with
      | [] => []
      | _ => [string_of_list_ascii (rev cur)]
      end
  | String c r =>
      if Ascii.eqb c LF
      then string_of_list_ascii (rev (c :: cur)) :: split_lines [] r
      else split_lines (c :: cur) r
  end.

(** [f.readlines()] of a file opened with mode ['r'] *)
Definition readlines (data : string) : list string :=
  split_lines [] (universal_newlines data).

(** Splitting on ['/'], as [Path(s)] does; [cur] is the component being
    read, reversed. *)
Fixpoint split_slash (cur : list ascii) (s : string) : list string :=
  match s with
  | EmptyString => [string_of_list_ascii (rev cur)]
  | String c r =>
      if Ascii.eqb c "/"
      then string_of_list_ascii (rev cur) :: split_slash [] r
      else split_slash (c :: cur) r
  end.

(** ** Paths *)

(** A [pathlib.Path]: whether it is anchored at the root, and its
    components.  [Path(s)] drops empty and ['.'] components; ['..'] is kept as
    a component (and names no entry of the filesystem model below). *)
Record Path := mkPath { anchored : bool; parts : list string }.

Definition keep_component (c : string) : bool :=
  negb (String.eqb c "" || String.eqb c ".").

Definition Path_of (s : string) : Path :=
  mkPath (startswith "/" s) (filter keep_component (split_slash [] s)).

(** [str(p)] *)
Definition Path_str (p : Path) : string :=
  match anchored p, parts p with
  | false, [] => "."
  | false, ps => join "/" ps
  | true, ps => "/" ++ join "/" ps
  end.

(** [p / name] for a one-component relative name *)
Definition Path_div (p : Path) (name : string) : Path :=
  mkPath (anchored p) (parts p ++ [name]).

(** [p.name] *)
Definition Path_name (p : Path) : string := last (parts p) "".

(** [p.suffix] *)
Definition Path_suffix (p : Path) : string := name_suffix (Path_name p).

(** [p.relative_to(base)], where [base] is a prefix of [p] *)
Definition Path_relative_to (p base : Path) : Path :=
  mkPath false (skipn (List.length (parts base)) (parts p)).

(** Equality of component lists. *)
Fixpoint components_eqb (p q : list string) : bool :=
  match p, q with
  | [], [] => true
  | a :: p', b :: q' => String.eqb a b && components_eqb p' q'
  | _, _ => false
  end.

(** ** The filesystem *)

#[local] Set Warnings "-register-all".

(** A node of the tree: a regular file with its execute permission and its
    contents, or a directory whose entries are kept in the order the
    operating system enumerates them. *)
Inductive node : Type :=
| File (executable : bool) (data : string)
| Dir (entries : list (string * node)).

Definition is_dir_node (n : node) : bool :=
  match n with Dir _ => true | File _ _ => false end.

Definition is_file_node (n : node) : bool :=
  match n with File _ _ => true | Dir _ => false end.

(** The entry called [name], if any. *)
Fixpoint assoc (name : string) (es : list (string * node)) : option node :=
  match es with
  | [] => None
  | (k, v) :: r => if String.eqb name k then Some v else assoc name r
  end.

(** Replace the entry called [name]. *)
Fixpoint assoc_set (name : string) (v : node) (es : list (string * node))
  : list (string * node) :=
  match es with
  | [] => []
  | (k, w) :: r =>
      if String.eqb name k then (k, v) :: r else (k, w) :: assoc_set name v r
  end.

(** Drop every entry called [name]. *)
Definition assoc_del (name : string) (es : list (string * node))
  : list (string * node) :=
  filter (fun e => negb (String.eqb name (fst e))) es.

(** The node a list of components leads to, from [n]. *)
Fixpoint lookup (p : list string) (n : node) : option node :=
  match p with
  | [] => Some n
  | c :: r =>
      match n with
      | File _ _ => None
      | Dir es =>
          match assoc c es with
          | Some child => lookup r child
          | None => None
          end
      end
  end.

(** A chain of new, empty directories: what [mkdir -p] creates below the
    first missing component. *)
Fixpoint fresh_dirs (p : list string) : node :=
  match p with
  | [] => Dir []
  | c :: r => Dir [(c, fresh_dirs r)]
  end.

(** [mkdir(parents=True, exist_ok=True)]: existing directories on the way
    are entered, missing ones are created (a new entry comes last in its
    parent), and a regular file on the way is an error ([None]). *)
Fixpoint mkdir_p (p : list string) (n : node) : option node :=
  match n with
  | File _ _ => None
  | Dir es =>
      match p with
      | [] => Some n
      | c :: r =>
          match assoc c es with
          | None => Some (Dir (es ++ [(c, fresh_dirs r)]))
          | Some child =>
              match mkdir_p r child with
              | Some child' => Some (Dir (assoc_set c child' es))
              | None => None
              end
          end
      end
  end.

(** Remove the entry at [p] with everything below it.  The root itself
    cannot be removed, and the way to [p] must exist. *)
Fixpoint remove (p : list string) (n : node) : option node :=
  match p, n with
  | [], _ => None
  | _ :: _, File _ _ => None
  | [c], Dir es =>
      match assoc c es with
      | Some _ => Some (Dir (assoc_del c es))
      | None => None
      end
  | c :: r, Dir es =>
      match assoc c es with
      | Some child =>
          match remove r child with
          | Some child' => Some (Dir (assoc_set c child' es))
          | None => None
          end
      | None => None
      end
  end.

(** Put [v] at [p]: the parent of [p] must be an existing directory; an
    existing entry is replaced in place, a new one comes last. *)
Fixpoint put (p : list string) (v : node) (n : node) : option node :=
  match p, n with
  | [], _ => None
  | _ :: _, File _ _ => None
  | [c], Dir es =>
      match assoc c es with
      | Some _ => Some (Dir (assoc_set c v es))
      | None => Some (Dir (es ++ [(c, v)]))
      end
  | c :: r, Dir es =>
      match assoc c es with
      | Some child =>
          match put r v child with
          | Some child' => Some (Dir (assoc_set c child' es))
          | None => None
          end
      | None => None
      end
  end.

(** Put [v] in the place of the node at [p]; the root itself when [p] is
    empty. *)
Definition replace_at (p : list string) (v : node) (n : node) : option node :=
  match p with
  | [] => Some v
  | _ :: _ => put p v n
  end.

(** Everything below a directory, as [rglob('*')] enumerates it: the
    entries of the directory, then the same for each of its subdirectories in
    turn.  Paths are relative to the directory. *)
Fixpoint walk (n : node) : list (list string * node) :=
  match n with
  | File _ _ => []
  | Dir es =>
      (map (fun e => ([fst e], snd e)) es ++
      (fix below (l : list (string * node)) : list (list string * node) :=
         match l with
         | [] => []
         | (c, child) :: r =>
             (map (fun e => (c :: fst e, snd e)) (walk child) ++ below r)%list
         end) es)%list
  end.

(** ** Exceptions, the world and the monad of the script *)

(** The exceptions the script can meet.  [main] tells three kinds apart:
    [subprocess.CalledProcessError], [FileNotFoundError], and every other
    [Exception] (the other [OSError]s of the file operations, the errors of
    the archive libraries such as [tarfile.ReadError], and the
    [UnicodeDecodeError] of reading text). *)
Inductive exn : Type :=
| CalledProcessError (cmd : list string) (returncode : Z)
| FileNotFoundError (filename : string)
| OSError (kind : string) (filename : string)
| ArchiveError (kind : string) (filename : string)
| UnicodeDecodeError (filename : string).

Inductive stream : Type := Stdout | Stderr.

(** One [subprocess.run] call: the argument vector, and whether the child's
    output was sent to [DEVNULL]. *)
Record proc_call := mkCall { argv : list string; silenced : bool }.

(** The state the script acts on: the filesystem, what was printed (one
    entry per [print] call, in order, with the stream it went to), and the
    child processes started, in order. *)
Record world := mkWorld {
  fs : node;
  out : list (stream * string);
  procs : list proc_call
}.

Inductive outcome (A : Type) : Type :=
| Ok (a : A)
| Raise (e : exn).
Arguments Ok {A} a.
Arguments Raise {A} e.

(** A computation returns or raises; the world it leaves is kept either
    way (what was printed before an exception stays printed). *)
Definition M (A : Type) : Type := world -> outcome A * world.

Definition ret {A} (a : A) : M A := fun w => (Ok a, w).

Definition bind {A B} (m : M A) (k : A -> M B) : M B :=
  fun w =>
    match m w with
    | (Ok a, w') => k a w'
    | (Raise e, w') => (Raise e, w')
    end.

Definition raise {A} (e : exn) : M A := fun w => (Raise e, w).

(** [try: body  except ...: handler] *)
Definition try_except {A} (body : M A) (handler : exn -> M A) : M A :=
  fun w =>
    match body w with
    | (Ok a, w') => (Ok a, w')
    | (Raise e, w') => handler e w'
    end.

Declare Scope script_scope.
Delimit Scope script_scope with script.
Notation "x <- m ;; k" := (bind m (fun x => k))
  (at level 100, m at next level, right associativity) : script_scope.
Notation "m ;; k" := (bind m (fun _ => k))
  (at level 100, right associativity) : script_scope.
Open Scope script_scope.

(** [print(text, file=s)] *)
Definition print_to (s : stream) (text : string) : M unit :=
  fun w => (Ok tt, mkWorld (fs w) (out w ++ [(s, text)]) (procs w)).

(** [print(text)]: the default stream is the standard output. *)
Definition print (text : string) : M unit := print_to Stdout text.

Definition print_info (msg : string) : M unit :=
  print_to Stderr ("[INFO] " ++ msg).

Definition print_success (msg : string) : M unit :=
  print_to Stderr ("[SUCCESS] " ++ msg).

Definition print_warning (msg : string) : M unit :=
  print_to Stderr ("[WARNING] " ++ msg).

Definition print_error (msg : string) : M unit :=
  print_to Stderr ("[ERROR] " ++ msg).

(** What went to one stream, in order. *)
Definition printed (s : stream) (w : world) : list string :=
  map snd (filter (fun e => match fst e, s with
                            | Stdout, Stdout | Stderr, Stderr => true
                            | _, _ => false
                            end) (out w)).

Definition get_fs : M node := fun w => (Ok (fs w), w).

Definition set_fs (n : node) : M unit :=
  fun w => (Ok tt, mkWorld n (out w) (procs w)).

(** The result of trying to run a program: it was not found on the search
    path, or it ran, left the filesystem as [after] and exited with [code]. *)
Inductive proc_result : Type :=
| NoSuchProgram
| Exited (code : Z) (after : node).

(** The result of [extractall]: the archive was unpacked, or the library
    raised [e]; either way the filesystem is left as [after].  Where the
    members land is the library's business: a member name may be absolute or
    climb out of the destination with [..]. *)
Inductive unpack_result : Type :=
| Unpacked (after : node)
| Refused (e : exn) (after : node).

(** The build types [--config] accepts. *)
Inductive BuildType : Type := Debug | Release | RelWithDebInfo | MinSizeRel.

Definition BuildType_str (c : BuildType) : string :=
  match c with
  | Debug => "Debug"
  | Release => "Release"
  | RelWithDebInfo => "RelWithDebInfo"
  | MinSizeRel => "MinSizeRel"
  end.

(** The parsed command line ([argparse]'s namespace). *)
Record Args := mkArgs {
  target : string;
  build_dir : string;
  config : BuildType;
  output : string;
  jobs : Z;
  clean : bool;
  extract : bool;
  test : bool;
  verbose : bool
}.

(** A computation that only appends to what was printed. *)
Definition appends {A} (m : M A) : Prop :=
  forall w, exists more, out (snd (m w)) = (out w ++ more)%list.

(** A computation that only looks: it leaves the filesystem as it is and
    starts no process. *)
Definition observes {A} (m : M A) : Prop :=
  forall w, fs (snd (m w)) = fs w /\ procs (snd (m w)) = procs w.

(** A computation that starts no process. *)
Definition spawns_nothing {A} (m : M A) : Prop :=
  forall w, procs (snd (m w)) = procs w.

(** ** A stand-in host, for examples *)

Module Fixture.

(** The bytes the stand-in packaging target writes. *)
Definition archive_bytes : string := "<archive>".

(** A stand-in build system.  Configuring leaves the cache marker in the
    build directory; building does nothing; building a packaging target
    writes the file [artifact] into the build directory, when one is given. *)
Definition fake_cmake (artifact : option string) (cmd : list string)
    (tree : node) : proc_result :=
  match cmd with
  | "cmake" :: "-B" :: d :: _ =>
      match put (parts (Path_of d) ++ ["CMakeCache.txt"]) (File false "") tree with
      | Some tree' => Exited 0 tree'
      | None => Exited 1 tree
      end
  | "cmake" :: "--build" :: d :: "--target" :: _ =>
      match artifact with
      | Some name =>
          match put (parts (Path_of d) ++ [name]) (File false archive_bytes) tree with
          | Some tree' => Exited 0 tree'
          | None => Exited 1 tree
          end
      | None => Exited 0 tree
      end
  | "cmake" :: "--build" :: _ => Exited 0 tree
  | _ => NoSuchProgram
  end.

(** A package with an executable and a README, and one with a README only. *)
Definition full_package : list (string * node) :=
  [("my_app", Dir [("bin", Dir [("my_app", File true "ELF")]);
                   ("README.txt", File false "My App")])].

Definition package_without_bin : list (string * node) :=
  [("my_app", Dir [("README.txt", File false "My App")])].

(** A stand-in archive library: it knows the bytes above, and unpacks
    [contents] into the directory it is given. *)
Definition unpack (contents : list (string * node)) (bytes : string)
    (dest : list string) (tree : node) : unpack_result :=
  if String.eqb bytes archive_bytes then
    match put dest (Dir contents) tree with
    | Some tree' => Unpacked tree'
    | None => Refused (FileNotFoundError (join "/" dest)) tree
    end
  else Refused (ArchiveError "ReadError" "not an archive") tree.

(** An archive library that rejects everything. *)
Definition refuse (bytes : string) (dest : list string) (tree : node)
  : unpack_result := Refused (ArchiveError "ReadError" "not an archive") tree.

(** A stand-in locale: the ASCII encoding, in which a byte above 127 does
    not decode. *)
Definition ascii_locale (bytes : string) : option string :=
  if forallb (fun c => Nat.ltb (nat_of_ascii c) 128) (list_ascii_of_string bytes)
  then Some bytes else None.

Definition pick_tmp (prefix : string) (_ : node) : list string :=
  ["tmp"; prefix ++ "k3v9x2"].

Definition render (e : exn) : string :=
  match e with
  | CalledProcessError _ _ => "Command returned non-zero exit status."
  | FileNotFoundError f => "No such file or directory: " ++ f
  | OSError kind f => kind ++ ": " ++ f
  | ArchiveError kind f => kind ++ ": " ++ f
  | UnicodeDecodeError f => "can't decode byte: " ++ f
  end.

(** A disk with an empty scratch area and nothing else. *)
Definition disk : node := Dir [("tmp", Dir [])].

Definition start : world := mkWorld disk [] [].

(** A disk after an earlier run that left a zip archive in the build
    directory. *)
Definition disk_with_zip : node :=
  Dir [("tmp", Dir []);
       ("build", Dir [("CMakeCache.txt", File false "");
                      ("my_app-1.0.0.zip", File false archive_bytes)])].

Definition start_with_zip : world := mkWorld disk_with_zip [] [].

(** A disk after a packaging run that left a gzip-tar archive. *)
Definition disk_with_tar : node :=
  Dir [("tmp", Dir []);
       ("build", Dir [("CMakeCache.txt", File false "");
                      ("my_app-1.0.0.tar.gz", File false archive_bytes)])].

Definition start_with_tar : world := mkWorld disk_with_tar [] [].

(** A build system whose build step fails: configuring leaves the marker,
    everything else exits with status 2. *)
Definition failing_cmake (cmd : list string) (tree : node) : proc_result :=
  match cmd with
  | "cmake" :: "-B" :: _ => fake_cmake None cmd tree
  | _ => Exited 2 tree
  end.

(** A disk with an extracted package that has no [bin] directory. *)
Definition unpacked_disk : node :=
  Dir [("tmp", Dir [("mcf-package-test-k3v9x2", Dir package_without_bin)])].

Definition start_unpacked : world := mkWorld unpacked_disk [] [].

(** [-t my_app], with the defaults for everything else. *)
Definition plain_args : Args :=
  mkArgs "my_app" "build" Release "" 0 false false false false.

(** [-t package-my_app -o dist --extract --test] *)
Definition verify_args : Args :=
  mkArgs "package-my_app" "build" Release "dist" 2 false true true false.

(** [-t package-my_app -b . --clean]: the build directory is the working
    directory. *)
Definition clean_here_args : Args :=
  mkArgs "package-my_app" "." Release "" 2 true false false false.


(** A README that is not ASCII text: the bytes [63 61 66 E9 0A]. *)
Definition latin1_readme : string :=
  "caf" ++ String (ascii_of_nat 233) (String (ascii_of_nat 10) EmptyString).

(** A package with that README, and a disk on which it was extracted. *)
Definition latin1_package : list (string * node) :=
  [("my_app", Dir [("bin", Dir [("my_app", File true "ELF")]);
                   ("README.txt", File false latin1_readme)])].

Definition unpacked_latin1_disk : node :=
  Dir [("tmp", Dir [("mcf-package-test-k3v9x2", Dir latin1_package)])].

Definition start_unpacked_latin1 : world := mkWorld unpacked_latin1_disk [] [].

End Fixture.

Section Pipeline.

(** *** What the host decides *)

(** The directory relative paths start from. *)
Variable cwd : list string.

(** [platform.system()] *)
Variable platform_system : string.

(** [multiprocessing.cpu_count()], or [None] when the query raises. *)
Variable cpu_count : option Z.

(** What running an argument vector does to a filesystem. *)
Variable run_process : list string -> node -> proc_result.

(** The components of the directory [tempfile.mkdtemp(prefix=...)] picks. *)
Variable mkdtemp_pick : string -> node -> list string.

(** What [tarfile] and [zipfile] do with the bytes of an archive, the
    components of the destination directory and the filesystem: what they
    write, and the exception they raise when they reject the archive
    ([tarfile.ReadError], [zipfile.BadZipFile]) or cannot write. *)
Variable tar_extractall : string -> list string -> node -> unpack_result.
Variable zip_extractall : string -> list string -> node -> unpack_result.

(** [str(e)] for an exception. *)
Variable str_exn : exn -> string.

(** Decoding the bytes of a text file with the encoding of the locale: the
    text, or [None] when the bytes are not valid in that encoding. *)
Variable decode_text : string -> option string.

(** *** File operations of the libraries the script calls *)

(** The components a path stands for, from the root. *)
Definition locate (p : Path) : list string :=
  if anchored p then parts p else cwd ++ parts p.

Definition node_at (n : node) (p : Path) : option node := lookup (locate p) n.

Definition exists_in (n : node) (p : Path) : bool :=
  match node_at n p with Some _ => true | None => false end.

Definition is_dir_in (n : node) (p : Path) : bool :=
  match node_at n p with Some d => is_dir_node d | None => false end.

Definition is_file_in (n : node) (p : Path) : bool :=
  match node_at n p with Some d => is_file_node d | None => false end.

(** [p.exists()] *)
Definition Path_exists (p : Path) : M bool :=
  fun w => (Ok (exists_in (fs w) p), w).

(** [p.mkdir(parents=True, exist_ok=True)] *)
Definition Path_mkdir_parents (p : Path) : M unit :=
  fun w =>
    match mkdir_p (locate p) (fs w) with
    | Some n => (Ok tt, mkWorld n (out w) (procs w))
    | None =>
        (Raise (OSError (if is_file_in (fs w) p then "FileExistsError"
                         else "NotADirectoryError") (Path_str p)), w)
    end.

(** [shutil.rmtree(p)]: the entries of the directory are deleted, then the
    directory itself.  A path without components is ['.'] or the root: its
    entries go, and removing the directory itself raises [OSError]. *)
Definition shutil_rmtree (p : Path) : M unit :=
  fun w =>
    match node_at (fs w) p with
    | None => (Raise (FileNotFoundError (Path_str p)), w)
    | Some (File _ _) => (Raise (OSError "NotADirectoryError" (Path_str p)), w)
    | Some (Dir _) =>
        match parts p with
        | [] =>
            match replace_at (locate p) (Dir []) (fs w) with
            | Some n =>
                (Raise (OSError "OSError" (Path_str p)),
                 mkWorld n (out w) (procs w))
            | None => (Raise (OSError "OSError" (Path_str p)), w)
            end
        | _ :: _ =>
            match remove (locate p) (fs w) with
            | Some n => (Ok tt, mkWorld n (out w) (procs w))
            | None => (Raise (OSError "OSError" (Path_str p)), w)
            end
        end
    end.

(** [list(p.iterdir())] *)
Definition Path_iterdir (p : Path) : M (list Path) :=
  fun w =>
    match node_at (fs w) p with
    | None => (Raise (FileNotFoundError (Path_str p)), w)
    | Some (File _ _) => (Raise (OSError "NotADirectoryError" (Path_str p)), w)
    | Some (Dir es) => (Ok (map (fun e => Path_div p (fst e)) es), w)
    end.

(** Whether a pattern matches a name: case is ignored on Windows. *)
Definition glob_match (pattern name : string) : bool :=
  if String.eqb platform_system "Windows"
  then fnmatch (lower pattern) (lower name)
  else fnmatch pattern name.

(** [list(p.glob(pattern))] for a one-component pattern: the matching
    entries of [p], in enumeration order; nothing when [p] is not a
    directory. *)
Definition glob_in (n : node) (p : Path) (pattern : string) : list Path :=
  match node_at n p with
  | Some (Dir es) =>
      map (Path_div p) (filter (glob_match pattern) (map fst es))
  | _ => []
  end.

Definition Path_glob (p : Path) (pattern : string) : M (list Path) :=
  fun w => (Ok (glob_in (fs w) p pattern), w).

(** [list(p.rglob('*'))] *)
Definition rglob_in (n : node) (p : Path) : list Path :=
  match node_at n p with
  | Some d => map (fun e => mkPath (anchored p) (parts p ++ fst e)) (walk d)
  | None => []
  end.

Definition Path_rglob (p : Path) : M (list Path) :=
  fun w => (Ok (rglob_in (fs w) p), w).

(** [os.access(p, os.X_OK)]: the execute bit of a file; a directory can be
    entered. *)
Definition access_x_in (n : node) (p : Path) : bool :=
  match node_at n p with
  | Some (File x _) => x
  | Some (Dir _) => true
  | None => false
  end.

(** [open(p, 'rb')] followed by reading the whole file: its bytes. *)
Definition read_bytes (p : Path) : M string :=
  fun w =>
    match node_at (fs w) p with
    | None => (Raise (FileNotFoundError (Path_str p)), w)
    | Some (Dir _) => (Raise (OSError "IsADirectoryError" (Path_str p)), w)
    | Some (File _ data) => (Ok data, w)
    end.

(** [open(p, 'r')] followed by reading the whole file: the bytes are decoded
    with the encoding of the locale, and bytes that are not valid in it
    raise [UnicodeDecodeError]. *)
Definition open_read (p : Path) : M string :=
  data <- read_bytes p ;;
  match decode_text data with
  | Some text => ret text
  | None => raise (UnicodeDecodeError (Path_str p))
  end.

(** [subprocess.run(cmd, check=True)], with the child's output sent to
    [DEVNULL] when [quiet]: the call is recorded; a missing program raises
    [FileNotFoundError], a nonzero exit status [CalledProcessError]. *)
Definition subprocess_run (cmd : list string) (quiet : bool) : M unit :=
  fun w =>
    let calls := (procs w ++ [mkCall cmd quiet])%list in
    match run_process cmd (fs w) with
    | NoSuchProgram =>
        (Raise (FileNotFoundError (hd "" cmd)), mkWorld (fs w) (out w) calls)
    | Exited code after =>
        let w' := mkWorld after (out w) calls in
        if Z.eqb code 0 then (Ok tt, w')
        else (Raise (CalledProcessError cmd code), w')
    end.

(** [shutil.copy2(src, dst)]: a directory as [dst] means a file of the
    source's name inside it; copying a file onto itself is an error; the
    data and the permission bits are copied. *)
Definition shutil_copy2 (src dst : Path) : M unit :=
  fun w =>
    let dst := if is_dir_in (fs w) dst then Path_div dst (Path_name src) else dst in
    if exists_in (fs w) src && exists_in (fs w) dst
       && components_eqb (locate src) (locate dst)
    then (Raise (OSError "SameFileError" (Path_str src)), w)
    else
      match node_at (fs w) src with
      | None => (Raise (FileNotFoundError (Path_str src)), w)
      | Some (Dir _) => (Raise (OSError "IsADirectoryError" (Path_str src)), w)
      | Some (File x data) =>
          if is_dir_in (fs w) dst
          then (Raise (OSError "IsADirectoryError" (Path_str dst)), w)
          else
            match put (locate dst) (File x data) (fs w) with
            | Some n => (Ok tt, mkWorld n (out w) (procs w))
            | None => (Raise (FileNotFoundError (Path_str dst)), w)
            end
      end.

(** [Path(tempfile.mkdtemp(prefix=...))]: a new, empty directory. *)
Definition tempfile_mkdtemp (prefix : string) : M Path :=
  fun w =>
    let d := mkPath true (mkdtemp_pick prefix (fs w)) in
    if exists_in (fs w) d
    then (Raise (OSError "FileExistsError" (Path_str d)), w)
    else
      match put (locate d) (Dir []) (fs w) with
      | Some n => (Ok d, mkWorld n (out w) (procs w))
      | None => (Raise (FileNotFoundError (Path_str d)), w)
      end.

(** Opening an archive and extracting all of it into the directory [dest]:
    [tarfile.open(f, 'r:gz')] or [zipfile.ZipFile(f, 'r')], then
    [extractall(dest)].  The library decides what is written and where, and
    what it raises; when it raises, what it wrote before stays. *)
Definition extractall
    (library : string -> list string -> node -> unpack_result)
    (archive dest : Path) : M unit :=
  bytes <- read_bytes archive ;;
  fun w =>
    match library bytes (locate dest) (fs w) with
    | Unpacked after => (Ok tt, mkWorld after (out w) (procs w))
    | Refused e after => (Raise e, mkWorld after (out w) (procs w))
    end.

(** [p.is_file()] *)
Definition Path_is_file (p : Path) : M bool :=
  fun w => (Ok (is_file_in (fs w) p), w).

(** [for x in items: body(x)] *)
Fixpoint for_each {A} (items : list A) (body : A -> M unit) : M unit :=
  match items with
  | [] => ret tt
  | x :: rest => body x ;; for_each rest body
  end.

(** *** The functions of the script *)

Definition get_cpu_count : Z :=
  match cpu_count with
  | Some n => n
  | None => 4
  end.

Definition clean_build_directory (build_dir : Path) : M unit :=
  print_info ("Cleaning build directory: " ++ Path_str build_dir) ;;
  present <- Path_exists build_dir ;;
  if present then
    shutil_rmtree build_dir ;;
    print_success "Build directory cleaned"
  else
    print_warning "Build directory does not exist, skipping clean".

Definition configure_command (build_dir : Path) (config : BuildType)
    (verbose : bool) : list string :=
  (["cmake"; "-B"; Path_str build_dir;
    ("-DCMAKE_BUILD_TYPE=" ++ BuildType_str config)%string]
   ++ (if verbose then ["-DCMAKE_VERBOSE_MAKEFILE=ON"] else []))%list.

Definition configure_cmake (build_dir : Path) (config : BuildType)
    (verbose : bool) : M unit :=
  print_info "Configuring CMake..." ;;
  let cache_file := Path_div build_dir "CMakeCache.txt" in
  cached <- Path_exists cache_file ;;
  if negb cached then
    Path_mkdir_parents build_dir ;;
    let cmake_cmd := configure_command build_dir config verbose in
    print_info ("Running: " ++ join " " cmake_cmd) ;;
    subprocess_run cmake_cmd false ;;
    print_success "CMake configuration complete"
  else
    print_info "Using existing CMake configuration".

Definition build_command (build_dir : Path) (config : BuildType) (jobs : Z)
    (verbose : bool) : list string :=
  (["cmake"; "--build"; Path_str build_dir; "--config"; BuildType_str config;
    "-j"; str_of_Z jobs]
   ++ (if verbose then ["--verbose"] else []))%list.

Definition build_project (build_dir : Path) (config : BuildType) (jobs : Z)
    (verbose : bool) : M unit :=
  print_info "Building project dependencies..." ;;
  let build_cmd := build_command build_dir config jobs verbose in
  print_info ("Running: " ++ join " " build_cmd) ;;
  subprocess_run build_cmd false ;;
  print_success "Build complete".

Definition package_command (build_dir : Path) (target : string)
    (verbose : bool) : list string :=
  (["cmake"; "--build"; Path_str build_dir; "--target"; target]
   ++ (if verbose then ["--verbose"] else []))%list.

Definition package_patterns : list string := ["*.tar.gz"; "*.zip"].

(** The search loop of [create_package]: the patterns are tried in order,
    and the first match of the first pattern that has one is taken. *)
Fixpoint find_package (build_dir : Path) (patterns : list string)
  : M (option Path) :=
  match patterns with
  | [] => ret None
  | pattern :: rest =>
      packages <- Path_glob build_dir pattern ;;
      match packages with
      | first :: _ => ret (Some first)
      | [] => find_package build_dir rest
      end
  end.

Definition create_package (build_dir : Path) (target : string)
    (verbose : bool) : M (option Path) :=
  print_info ("Creating package: " ++ target) ;;
  let package_cmd := package_command build_dir target verbose in
  subprocess_run package_cmd (negb verbose) ;;
  package_file <- find_package build_dir package_patterns ;;
  match package_file with
  | None =>
      print_error ("Package file not found in " ++ Path_str build_dir) ;;
      ret None
  | Some f =>
      print_success ("Package created: " ++ Path_name f) ;;
      ret (Some f)
  end.

Definition extract_package (package_file : Path) : M (option Path) :=
  print_info "Extracting package for verification..." ;;
  extract_dir <- tempfile_mkdtemp "mcf-package-test-" ;;
  let list_and_return : M (option Path) :=
    print_success ("Package extracted to: " ++ Path_str extract_dir) ;;
    print_info "Package contents:" ;;
    items <- Path_rglob extract_dir ;;
    for_each items (fun item =>
      regular <- Path_is_file item ;;
      if regular
      then print_to Stderr
             ("  " ++ Path_str (Path_relative_to item extract_dir))
      else ret tt) ;;
    ret (Some extract_dir) in
  if String.eqb (Path_suffix package_file) ".gz" then
    extractall tar_extractall package_file extract_dir ;;
    list_and_return
  else if String.eqb (Path_suffix package_file) ".zip" then
    extractall zip_extractall package_file extract_dir ;;
    list_and_return
  else
    print_error ("Unknown package format: " ++ Path_str package_file) ;;
    ret None.

Definition plugin_patterns : list string := ["*.so"; "*.dll"; "*.dylib"].

(** [for pattern in patterns: found.extend(d.glob(pattern))] *)
Fixpoint extend_with_globs (d : Path) (patterns : list string)
    (found : list Path) : M (list Path) :=
  match patterns with
  | [] => ret found
  | pattern :: rest =>
      more <- Path_glob d pattern ;;
      extend_with_globs d rest (found ++ more)%list
  end.

Definition separator : string := "----------------------------------------".

Definition test_package (extract_dir : Path) : M bool :=
  print_info "Running basic package tests..." ;;
  children <- Path_iterdir extract_dir ;;
  tree <- get_fs ;;
  let subdirs := filter (is_dir_in tree) children in
  match subdirs with
  | [] =>
      print_error ("Could not find package directory in "
                   ++ Path_str extract_dir) ;;
      ret false
  | package_dir :: _ =>
      print_info ("Package directory: " ++ Path_str package_dir) ;;
      print_info "Checking directory structure..." ;;
      let bin_dir := Path_div package_dir "bin" in
      has_bin <- Path_exists bin_dir ;;
      errors <-
        (if negb has_bin then
           print_warning "Missing bin/ directory" ;;
           ret 1%Z
         else
           print_success "bin/ directory found" ;;
           executables <- Path_glob bin_dir "*" ;;
           tree <- get_fs ;;
           let executables :=
             if String.eqb platform_system "Windows"
             then filter (fun e => String.eqb (Path_suffix e) ".exe") executables
             else filter (access_x_in tree) executables in
           print_info ("  Executables: "
                       ++ str_of_Z (Z.of_nat (List.length executables))) ;;
           ret 0%Z) ;;
      let plugins_dir := Path_div package_dir "plugins" in
      has_plugins <- Path_exists plugins_dir ;;
      (if has_plugins then
         print_success "plugins/ directory found" ;;
         plugins <- extend_with_globs plugins_dir plugin_patterns [] ;;
         print_info ("  Plugins: " ++ str_of_Z (Z.of_nat (List.length plugins)))
       else ret tt) ;;
      let config_dir := Path_div package_dir "config" in
      has_config <- Path_exists config_dir ;;
      (if has_config then
         print_success "config/ directory found" ;;
         configs <- Path_rglob config_dir ;;
         tree <- get_fs ;;
         let configs := filter (is_file_in tree) configs in
         print_info ("  Config files: "
                     ++ str_of_Z (Z.of_nat (List.length configs)))
       else ret tt) ;;
      let readme := Path_div package_dir "README.txt" in
      has_readme <- Path_exists readme ;;
      (if has_readme then
         print_success "README.txt found" ;;
         print_info "README contents:" ;;
         print separator ;;
         text <- open_read readme ;;
         let lines := firstn 20 (readlines text) in
         print (join "" lines) ;;
         print separator
       else
         print_warning "Missing README.txt") ;;
      (if Z.eqb errors 0 then
         print_success "All package tests passed"
       else
         print_warning ("Package tests completed with " ++ str_of_Z errors
                        ++ " warnings")) ;;
      print_info ("Extracted package location: " ++ Path_str package_dir) ;;
      print_info ("You can manually test by running: cd "
                  ++ Path_str package_dir ++ " && ./bin/<executable>") ;;
      ret (Z.eqb errors 0)
  end.

Definition copy_to_output (package_file output_dir : Path) : M unit :=
  print_info "Copying package to output directory..." ;;
  Path_mkdir_parents output_dir ;;
  let output_file := Path_div output_dir (Path_name package_file) in
  shutil_copy2 package_file output_file ;;
  print_success ("Package copied to: " ++ Path_str output_file).

(** *** [main] *)

Definition required_prefix : string := "package-".

(** The target [main] goes on with: the prefix is prepended when the name
    does not start with it. *)
Definition normalize_target (t : string) : string :=
  if negb (startswith required_prefix t) then required_prefix ++ t else t.

(** The job count [main] goes on with: zero asks for the CPU count. *)
Definition resolve_jobs (j : Z) : Z :=
  if Z.eqb j 0 then get_cpu_count else j.

(** The namespace after the three adjustments at the top of [main]. *)
Definition resolve (args : Args) : Args :=
  mkArgs (normalize_target (target args)) (build_dir args) (config args)
         (output args) (resolve_jobs (jobs args)) (clean args)
         (if test args then true else extract args) (test args)
         (verbose args).

Definition is_some {A} (o : option A) : bool :=
  match o with Some _ => true | None => false end.

(** The stages that build: cleaning when asked, configuring, building. *)
Definition build_stages (args : Args) (build_dir : Path) : M unit :=
  (if clean args then clean_build_directory build_dir else ret tt) ;;
  configure_cmake build_dir (config args) (verbose args) ;;
  build_project build_dir (config args) (jobs args) (verbose args).

(** The publishing stage and the closing report, once extraction and the
    package test are over. *)
Definition publish_and_report (package_file : Path)
    (output_dir extract_dir : option Path) : M Z :=
  match output_dir with
  | Some o => copy_to_output package_file o
  | None => ret tt
  end ;;
  print "" ;;
  print_success "Packaging complete!" ;;
  print_info ("Package location: " ++ Path_str package_file) ;;
  match output_dir with
  | Some o =>
      print_info ("Output location: "
                  ++ Path_str (Path_div o (Path_name package_file)))
  | None => ret tt
  end ;;
  match extract_dir with
  | Some d => print_info ("Extracted for testing: " ++ Path_str d)
  | None => ret tt
  end ;;
  ret 0%Z.

(** What follows a successful packaging stage: extraction when asked, the
    package test when asked and a directory was extracted, then publishing. *)
Definition verify_and_publish (args : Args) (package_file : Path)
    (output_dir : option Path) : M Z :=
  extract_dir <-
    (if extract args then extract_package package_file else ret None) ;;
  match (if test args then extract_dir else None) with
  | Some d => test_package d ;; ret tt
  | None => ret tt
  end ;;
  publish_and_report package_file output_dir extract_dir.

(** The body of the [try] block, on the adjusted namespace. *)
Definition workflow (args : Args) (build_dir : Path)
    (output_dir : option Path) : M Z :=
  build_stages args build_dir ;;
  package_file <- create_package build_dir (target args) (verbose args) ;;
  match package_file with
  | None =>
      print_error "Packaging failed" ;;
      ret 1%Z
  | Some package_file => verify_and_publish args package_file output_dir
  end.

(** The three [except] clauses. *)
Definition on_exception (e : exn) : M Z :=
  match e with
  | CalledProcessError _ _ =>
      print_error ("Command failed: " ++ str_exn e) ;; ret 1%Z
  | FileNotFoundError _ =>
      print_error ("File not found: " ++ str_exn e) ;; ret 1%Z
  | _ =>
      print_error ("Unexpected error: " ++ str_exn e) ;; ret 1%Z
  end.

(** What [main] prints before the [try] block: the warning about a target
    without the prefix, the banner, and a blank line. *)
Definition banner (parsed : Args) : M unit :=
  (if negb (startswith required_prefix (target parsed)) then
     print_warning
       "Target name should start with 'package-'. Prepending it automatically."
   else ret tt) ;;
  let args := resolve parsed in
  print_info "MCF Application Packaging Tool" ;;
  print_info (str_repeat "=" 31) ;;
  print_info ("Package Target: " ++ target args) ;;
  print_info ("Build Directory: " ++ build_dir args) ;;
  print_info ("Build Type: " ++ BuildType_str (config args)) ;;
  print_info ("Build Jobs: " ++ str_of_Z (jobs args)) ;;
  print "".

(** [Path(args.build_dir)] *)
Definition build_path (args : Args) : Path := Path_of (build_dir args).

(** [Path(args.output) if args.output else None] *)
Definition output_path (args : Args) : option Path :=
  if String.eqb (output args) "" then None else Some (Path_of (output args)).

(** [main()], from the parsed arguments to the exit status. *)
Definition main (parsed : Args) : M Z :=
  banner parsed ;;
  let args := resolve parsed in
  try_except (workflow args (build_path args) (output_path args)) on_exception.


(** ** Facts about the file operations *)

Lemma prefix_app (p t : string) : String.prefix p (p ++ t) = true.
Proof.
  induction p as [|c p IH]; simpl.
  - destruct t; reflexivity.
  - destruct (ascii_dec c c) as [_|ne]; [exact IH | now elim ne].
Qed.

Section Entries.

Variable c : string.

Lemma assoc_set_same (v : node) (es : list (string * node)) :
  assoc c es <> None -> assoc c (assoc_set c v es) = Some v.
Proof.
  induction es as [|[k w] r IH]; simpl; intro H.
  - now elim H.
  - destruct (String.eqb c k) eqn:E; simpl; rewrite E; auto.
Qed.

Lemma assoc_set_other (c' : string) (v : node) (es : list (string * node)) :
  c' <> c -> assoc c' (assoc_set c v es) = assoc c' es.
Proof.
  intro ne. induction es as [|[k w] r IH]; simpl; auto.
  destruct (String.eqb c k) eqn:E; simpl.
  - apply String.eqb_eq in E. subst k.
    destruct (String.eqb c' c) eqn:E'; auto.
    apply String.eqb_eq in E'. contradiction.
  - rewrite IH. reflexivity.
Qed.

Lemma assoc_set_id (v : node) (es : list (string * node)) :
  assoc c es = Some v -> assoc_set c v es = es.
Proof.
  induction es as [|[k w] r IH]; simpl; auto.
  destruct (String.eqb c k) eqn:E; intro H.
  - now inversion H.
  - now rewrite IH.
Qed.

Lemma assoc_del_same (es : list (string * node)) :
  assoc c (assoc_del c es) = None.
Proof.
  induction es as [|[k w] r IH]; simpl; auto.
  destruct (String.eqb c k) eqn:E; simpl; auto.
  now rewrite E.
Qed.

Lemma assoc_app_found (v : node) (es l : list (string * node)) :
  assoc c es = Some v -> assoc c (es ++ l) = Some v.
Proof.
  induction es as [|[k w] r IH]; simpl; [discriminate|].
  destruct (String.eqb c k); auto.
Qed.

Lemma assoc_app_new (v : node) (es : list (string * node)) :
  assoc c es = None -> assoc c (es ++ [(c, v)]) = Some v.
Proof.
  induction es as [|[k w] r IH]; simpl.
  - now rewrite String.eqb_refl.
  - destruct (String.eqb c k); [discriminate | auto].
Qed.

End Entries.

Lemma lookup_app (p q : list string) (n : node) :
  lookup (p ++ q) n =
  match lookup p n with Some m => lookup q m | None => None end.
Proof.
  revert n. induction p as [|c p IH]; intro n; simpl; auto.
  destruct n as [x d|es]; auto.
  destruct (assoc c es); auto.
Qed.




(** [mkdir -p] on a directory that exists changes nothing. *)
Lemma mkdir_p_existing (p : list string) :
  forall n es, lookup p n = Some (Dir es) -> mkdir_p p n = Some n.
Proof.
  induction p as [|c p IH]; intros n es H; destruct n as [x d|es'];
    simpl in *; try discriminate; auto.
  destruct (assoc c es') as [child|] eqn:A; [|discriminate].
  rewrite (IH _ _ H). now rewrite (assoc_set_id _ _ _ A).
Qed.




Lemma put_cons (a : string) (rest : list string) (v : node)
    (es : list (string * node)) :
  rest <> [] ->
  put (a :: rest) v (Dir es) =
  match assoc a es with
  | Some child =>
      match put rest v child with
      | Some child' => Some (Dir (assoc_set a child' es))
      | None => None
      end
  | None => None
  end.
Proof. destruct rest; [intro H; now elim H | reflexivity]. Qed.


(** What was put at a path is found there. *)
Lemma lookup_put (p : list string) (v : node) :
  forall n n', put p v n = Some n' -> lookup p n' = Some v.
Proof.
  induction p as [|c p IH]; intros n n' H; [discriminate|].
  destruct n as [x d|es]; [destruct p; discriminate|].
  destruct p as [|b p].
  - simpl in H. destruct (assoc c es) eqn:A; inversion H; simpl.
    + rewrite assoc_set_same by congruence. reflexivity.
    + now rewrite (assoc_app_new _ _ _ A).
  - rewrite put_cons in H by discriminate.
    destruct (assoc c es) as [child|] eqn:A; [|discriminate].
    destruct (put (b :: p) v child) as [child'|] eqn:R; [|discriminate].
    inversion H. cbn [lookup]. rewrite assoc_set_same by congruence.
    eapply IH; eauto.
Qed.

Lemma remove_cons (c : string) (rest : list string)
    (es : list (string * node)) :
  rest <> [] ->
  remove (c :: rest) (Dir es) =
  match assoc c es with
  | Some child =>
      match remove rest child with
      | Some child' => Some (Dir (assoc_set c child' es))
      | None => None
      end
  | None => None
  end.
Proof. destruct rest; [intro H; now elim H | reflexivity]. Qed.

(** After removing a path, nothing is found at it. *)
Lemma lookup_remove (p : list string) :
  forall n n', remove p n = Some n' -> lookup p n' = None.
Proof.
  induction p as [|c p IH]; intros n n' H; [discriminate|].
  destruct n as [x d|es]; [destruct p; discriminate|].
  destruct p as [|b p].
  - simpl in H. destruct (assoc c es); [|discriminate].
    inversion H. simpl. now rewrite assoc_del_same.
  - rewrite remove_cons in H by discriminate.
    destruct (assoc c es) as [child|] eqn:A; [|discriminate].
    destruct (remove (b :: p) child) as [child'|] eqn:R; [|discriminate].
    inversion H. cbn [lookup]. rewrite assoc_set_same by congruence.
    eapply IH; eauto.
Qed.

(** A path that leads somewhere can be removed, unless it is the root. *)
Lemma remove_succeeds (p : list string) :
  forall n v, p <> [] -> lookup p n = Some v -> exists n', remove p n = Some n'.
Proof.
  induction p as [|c p IH]; intros n v ne L; [now elim ne|].
  destruct n as [x d|es]; [discriminate|]. simpl in L.
  destruct (assoc c es) as [child|] eqn:A; [|discriminate].
  destruct p as [|b p].
  - simpl. rewrite A. eauto.
  - destruct (IH child v) as [child' R]; [discriminate|assumption|].
    rewrite remove_cons by discriminate. rewrite A, R. eauto.
Qed.

(** ** The claims *)

(** Unfolding one layer of the monad. *)
Ltac step :=
  cbv [bind ret raise print print_info print_success print_warning
       print_error print_to Path_exists Path_glob Path_rglob Path_is_file
       get_fs];
  cbn [fst snd fs out procs].

(** C4. The target [main] goes on with is the given name with the prefix
    ["package-"] prepended once when the name does not start with it, and
    the given name itself when it does; normalizing a second time changes
    nothing. *)
Theorem target_normalization (parsed : Args) :
  (startswith required_prefix (target parsed) = false ->
   target (resolve parsed) = required_prefix ++ target parsed) /\
  (startswith required_prefix (target parsed) = true ->
   target (resolve parsed) = target parsed) /\
  target (resolve (resolve parsed)) = target (resolve parsed).
Proof.
  unfold resolve; cbn [target]. unfold normalize_target.
  repeat split.
  - intros ->. reflexivity.
  - intros ->. reflexivity.
  - destruct (startswith required_prefix (target parsed)) eqn:E; cbn [negb].
    + now rewrite E.
    + unfold startswith. now rewrite prefix_app.
Qed.

(** C9. A job count of zero becomes 4 when the CPU count cannot be
    queried, and a nonzero job count is kept as given, whatever the host
    would have answered. *)
Theorem job_count_resolution (parsed : Args) :
  (jobs parsed = 0%Z -> cpu_count = None -> jobs (resolve parsed) = 4%Z) /\
  (jobs parsed <> 0%Z -> jobs (resolve parsed) = jobs parsed).
Proof.
  unfold resolve; cbn [jobs]. unfold resolve_jobs, get_cpu_count. split.
  - intros -> ->. reflexivity.
  - intro ne. apply Z.eqb_neq in ne. now rewrite ne.
Qed.

Lemma lookup_below_nothing (p q : list string) (n : node) :
  lookup p n = None -> lookup (p ++ q) n = None.
Proof. intro H. now rewrite lookup_app, H. Qed.

Lemma assoc_del_other (c b : string) (es : list (string * node)) :
  b <> c -> assoc b (assoc_del c es) = assoc b es.
Proof.
  intro ne. induction es as [|[k v] r IH]; [reflexivity|].
  unfold assoc_del. cbn [filter fst].
  destruct (String.eqb c k) eqn:E; cbn [negb assoc].
  - apply String.eqb_eq in E. rewrite <- E.
    destruct (String.eqb b c) eqn:B; [|exact IH].
    apply String.eqb_eq in B. contradiction.
  - destruct (String.eqb b k); [reflexivity | exact IH].
Qed.

(** Removing the entry at a path keeps every regular file that is not below
    that path. *)
Lemma remove_keeps_other_files (p : list string) :
  forall q n n' x d,
  remove p n = Some n' ->
  firstn (List.length p) q <> p ->
  lookup q n = Some (File x d) -> lookup q n' = Some (File x d).
Proof.
  induction p as [|c p IH]; intros q n n' x d R out L; [discriminate|].
  destruct n as [y e|es]; [destruct p; discriminate|].
  destruct q as [|b q]; [discriminate|].
  cbn [lookup] in L. destruct (assoc b es) as [ch|] eqn:B; [|discriminate].
  destruct p as [|a p].
  - simpl in R. destruct (assoc c es); inversion R.
    cbn [lookup]. rewrite assoc_del_other, B; [exact L|].
    intros ->. now elim out.
  - rewrite remove_cons in R by discriminate.
    destruct (assoc c es) as [child|] eqn:C; [|discriminate].
    destruct (remove (a :: p) child) as [child'|] eqn:R'; [|discriminate].
    inversion R. cbn [lookup].
    destruct (string_dec b c) as [->|ne].
    + rewrite assoc_set_same by congruence.
      rewrite B in C. inversion C as [same]. rewrite same in L.
      eapply IH; eauto.
      intro E. apply out.
      change (c :: firstn (List.length (a :: p)) q = c :: a :: p).
      now rewrite E.
    + rewrite assoc_set_other by assumption. now rewrite B.
Qed.

Lemma locate_not_root (p : Path) : parts p <> [] -> locate p <> [].
Proof.
  unfold locate. intros np H. destruct (anchored p); [contradiction|].
  apply app_eq_nil in H. now destruct H.
Qed.

(** C8 (as amended). For a build directory path that has a component of its
    own (it is neither ['.'] nor the root) and no [..] component: cleaning a
    build directory that exists removes it with everything below it, keeps
    every regular file that is not below it, and reports success; cleaning
    one that does not exist changes nothing, prints a warning and returns
    normally.  So a second clean right after the first is such a no-op. *)
Theorem clean_build_directory_idempotent (build_dir : Path) (w : world) :
  parts build_dir <> [] ->
  ~ In ".." (locate build_dir) ->
  let started :=
    (Stderr, "[INFO] Cleaning build directory: " ++ Path_str build_dir) in
  let skipped :=
    (Stderr, "[WARNING] Build directory does not exist, skipping clean") in
  match node_at (fs w) build_dir with
  | Some (Dir _) =>
      exists tree,
        let w1 := mkWorld tree
                    (out w ++ [started; (Stderr, "[SUCCESS] Build directory cleaned")])
                    (procs w) in
        clean_build_directory build_dir w = (Ok tt, w1) /\
        (forall below, lookup (locate build_dir ++ below) tree = None) /\
        (forall q x data,
           lookup q (fs w) = Some (File x data) ->
           firstn (List.length (locate build_dir)) q <> locate build_dir ->
           lookup q tree = Some (File x data)) /\
        clean_build_directory build_dir w1 =
          (Ok tt, mkWorld tree (out w1 ++ [started; skipped]) (procs w))
  | Some (File _ _) => True
  | None =>
      clean_build_directory build_dir w =
        (Ok tt, mkWorld (fs w) (out w ++ [started; skipped]) (procs w))
  end.
Proof.
  intros np _ started skipped.
  assert (ne := locate_not_root _ np).
  assert (absent : forall v, node_at (fs v) build_dir = None ->
            clean_build_directory build_dir v =
              (Ok tt, mkWorld (fs v) (out v ++ [started; skipped]) (procs v))).
  { intros v H. unfold clean_build_directory. step.
    unfold exists_in. rewrite H. cbn [fs out procs].
    now rewrite <- app_assoc. }
  destruct (node_at (fs w) build_dir) as [[x d|es]|] eqn:N; auto.
  destruct (remove_succeeds _ _ _ ne N) as [tree R].
  exists tree. cbn zeta. repeat split.
  - unfold clean_build_directory. step.
    unfold exists_in, shutil_rmtree. rewrite N. cbn [fs out procs]. rewrite N, R.
    destruct (parts build_dir); [now elim np|].
    cbn [fs out procs]. now rewrite <- app_assoc.
  - intro below. apply lookup_below_nothing. eapply lookup_remove; eauto.
  - intros q x data L other. eapply remove_keeps_other_files; eauto.
  - rewrite absent; [reflexivity|].
    cbn [fs]. unfold node_at. eapply lookup_remove; eauto.
Qed.

(** C5. When the cache marker [CMakeCache.txt] is in the build directory,
    configuring runs no command and leaves the filesystem alone, whatever
    build type is asked for.  So, with a configure command that leaves the
    marker when it succeeds, a configure call that returned ran the command
    at most once, and a second configure call after it runs nothing. *)
Theorem configure_cmake_at_most_once (build_dir : Path) (w : world) :
  let marker := Path_div build_dir "CMakeCache.txt" in
  let skipped v :=
    mkWorld (fs v)
      (out v ++ [(Stderr, "[INFO] Configuring CMake...");
                 (Stderr, "[INFO] Using existing CMake configuration")])
      (procs v) in
  (forall config verbose,
     exists_in (fs w) marker = true ->
     configure_cmake build_dir config verbose w = (Ok tt, skipped w)) /\
  (forall config1 verbose1 config2 verbose2 w1,
     (forall config verbose tree after,
        run_process (configure_command build_dir config verbose) tree
          = Exited 0 after ->
        exists_in after marker = true) ->
     configure_cmake build_dir config1 verbose1 w = (Ok tt, w1) ->
     (List.length (procs w1) <= S (List.length (procs w)))%nat /\
     configure_cmake build_dir config2 verbose2 w1 = (Ok tt, skipped w1)).
Proof.
  intros marker skipped.
  assert (cached : forall v config verbose,
            exists_in (fs v) marker = true ->
            configure_cmake build_dir config verbose v = (Ok tt, skipped v)).
  { intros v config verbose H. unfold configure_cmake. step.
    fold marker. rewrite H. cbn [negb fs out procs]. unfold skipped.
    now rewrite <- app_assoc. }
  split; [apply cached|].
  intros config1 verbose1 config2 verbose2 w1 contract H.
  destruct (exists_in (fs w) marker) eqn:E.
  - rewrite cached in H by assumption. inversion H. subst w1.
    split; [cbn; lia|]. apply cached. exact E.
  - unfold configure_cmake in H. revert H. step. fold marker. rewrite E. cbn [negb].
    unfold Path_mkdir_parents. cbn [fs out procs].
    destruct (mkdir_p (locate build_dir) (fs w)) as [made|]; [|discriminate].
    unfold subprocess_run. cbn [fs out procs].
    destruct (run_process (configure_command build_dir config1 verbose1) made)
      as [|code after] eqn:P; [discriminate|].
    destruct (Z.eqb code 0) eqn:Z0; [|discriminate].
    apply Z.eqb_eq in Z0. subst code.
    intro H. inversion H. subst w1. split.
    + cbn. rewrite length_app. cbn. lia.
    + apply cached. cbn [fs]. eapply contract; eauto.
Qed.

Lemma filter_first {A} (f : A -> bool) (l : list A) (x : A) :
  In x l -> f x = true ->
  exists l1 y l2,
    l = (l1 ++ y :: l2)%list /\ f y = true /\
    (forall z, In z l1 -> f z = false) /\
    filter f l = y :: filter f l2.
Proof.
  induction l as [|a l IH]; intros I T; [contradiction|].
  destruct (f a) eqn:Fa.
  - exists [], a, l. simpl. rewrite Fa. repeat split; auto. contradiction.
  - destruct I as [->|I]; [congruence|].
    destruct (IH I T) as (l1 & y & l2 & E & Fy & N & Fl).
    exists (a :: l1), y, l2. simpl. rewrite Fa, E. repeat split; auto.
    + intros z [<-|Iz]; auto.
    + now rewrite <- E.
Qed.

Lemma filter_none {A} (f : A -> bool) (l : list A) :
  (forall x, In x l -> f x = false) -> filter f l = [].
Proof.
  induction l as [|a l IH]; intro H; simpl; auto.
  rewrite (H a) by now left. apply IH. intros x I. apply H. now right.
Qed.

Lemma Path_name_div (p : Path) (name : string) :
  Path_name (Path_div p name) = name.
Proof. unfold Path_name, Path_div. cbn [parts]. apply last_last. Qed.

(** C6. When the packaging command has succeeded and the build directory
    holds an entry matching [*.tar.gz] and an entry matching [*.zip], the
    package stage returns one artifact: the first entry, in enumeration
    order, that matches [*.tar.gz]. *)
Theorem create_package_prefers_tar_gz (build_dir : Path) (target : string)
    (verbose : bool) (w : world) (after : node)
    (es : list (string * node)) (gz zip : string) :
  run_process (package_command build_dir target verbose) (fs w)
    = Exited 0 after ->
  node_at after build_dir = Some (Dir es) ->
  In gz (map fst es) -> glob_match "*.tar.gz" gz = true ->
  In zip (map fst es) -> glob_match "*.zip" zip = true ->
  exists earlier name later,
    map fst es = (earlier ++ name :: later)%list /\
    glob_match "*.tar.gz" name = true /\
    (forall other, In other earlier -> glob_match "*.tar.gz" other = false) /\
    create_package build_dir target verbose w =
      (Ok (Some (Path_div build_dir name)),
       mkWorld after
         (out w ++ [(Stderr, "[INFO] Creating package: " ++ target);
                    (Stderr, "[SUCCESS] Package created: " ++ name)])
         (procs w ++ [mkCall (package_command build_dir target verbose)
                             (negb verbose)])).
Proof.
  intros run listing Igz Mgz _ _.
  destruct (filter_first _ _ _ Igz Mgz) as (earlier & name & later & E & M & N & F).
  exists earlier, name, later. repeat split; auto.
  unfold create_package. step. unfold subprocess_run. cbn [fs out procs].
  rewrite run. cbn [Z.eqb fs out procs package_patterns find_package]. step.
  unfold glob_in at 1. rewrite listing, F. cbn [map fs out procs].
  rewrite Path_name_div. now rewrite <- app_assoc.
Qed.

Lemma banner_returns (parsed : Args) (w : world) :
  exists printed,
    banner parsed w = (Ok tt, mkWorld (fs w) (out w ++ printed ++ [(Stdout, "")])
                                (procs w)).
Proof.
  unfold banner.
  destruct (negb (startswith required_prefix (target parsed))); step;
    rewrite <- !app_assoc; cbn [app];
    match goal with
    | |- context [(out w ++ ?l)%list] => exists (removelast l)
    end; reflexivity.
Qed.

(** C7. When the stages before it succeed, the packaging command succeeds
    and no entry of the build directory matches an archive pattern, [main]
    prints the two error messages and returns 1; nothing else is run,
    written or printed after the packaging command. *)
Theorem no_artifact_is_fatal (parsed : Args) (w w3 : world) (after : node) :
  let args := resolve parsed in
  let build_dir := build_path args in
  let package_cmd := package_command build_dir (target args) (verbose args) in
  build_stages args build_dir (snd (banner parsed w)) = (Ok tt, w3) ->
  run_process package_cmd (fs w3) = Exited 0 after ->
  (forall es name pattern,
     node_at after build_dir = Some (Dir es) ->
     In name (map fst es) -> In pattern package_patterns ->
     glob_match pattern name = false) ->
  main parsed w =
    (Ok 1%Z,
     mkWorld after
       (out w3 ++ [(Stderr, "[INFO] Creating package: " ++ target args);
                   (Stderr, "[ERROR] Package file not found in "
                            ++ Path_str build_dir);
                   (Stderr, "[ERROR] Packaging failed")])
       (procs w3 ++ [mkCall package_cmd (negb (verbose args))])).
Proof.
  intros args build_dir package_cmd stages run nothing.
  assert (none : forall pattern, In pattern package_patterns ->
                   glob_in after build_dir pattern = []).
  { intros pattern I. unfold glob_in.
    destruct (node_at after build_dir) as [[x d|es]|] eqn:N; auto.
    rewrite filter_none; auto.
    intros name Iname. eapply nothing; eauto. }
  unfold main. destruct (banner_returns parsed w) as [printed B].
  rewrite B in stages. cbn [snd] in stages.
  unfold bind at 1. rewrite B. fold args build_dir.
  unfold try_except, workflow. unfold bind at 1. rewrite stages.
  unfold create_package. fold package_cmd. step.
  unfold subprocess_run. cbn [fs out procs]. rewrite run.
  cbn [Z.eqb fs out procs package_patterns find_package]. step.
  rewrite !none by (simpl; auto). cbn [fs out procs].
  now rewrite <- !app_assoc.
Qed.


Lemma locate_div (p : Path) (name : string) :
  locate (Path_div p name) = (locate p ++ [name])%list.
Proof.
  unfold locate, Path_div. cbn [anchored parts].
  destruct (anchored p); [reflexivity | apply app_assoc].
Qed.


(** *** What is printed is never taken back *)

Lemma appends_ret {A} (a : A) : appends (ret a).
Proof. intro w. exists []. cbn. now rewrite app_nil_r. Qed.

Lemma appends_raise {A} (e : exn) : appends (@raise A e).
Proof. intro w. exists []. cbn. now rewrite app_nil_r. Qed.

Lemma appends_print_to (s : stream) (text : string) :
  appends (print_to s text).
Proof. intro w. now exists [(s, text)]. Qed.

Lemma appends_bind {A B} (m : M A) (k : A -> M B) :
  appends m -> (forall a, appends (k a)) -> appends (bind m k).
Proof.
  intros Hm Hk w. unfold bind. destruct (Hm w) as [l1 E1].
  destruct (m w) as [[a|e] w1]; cbn [snd] in *.
  - destruct (Hk a w1) as [l2 E2]. exists (l1 ++ l2)%list.
    now rewrite E2, E1, app_assoc.
  - now exists l1.
Qed.

Lemma appends_try_except {A} (body : M A) (handler : exn -> M A) :
  appends body -> (forall e, appends (handler e)) ->
  appends (try_except body handler).
Proof.
  intros Hb Hh w. unfold try_except. destruct (Hb w) as [l1 E1].
  destruct (body w) as [[a|e] w1]; cbn [snd] in *.
  - now exists l1.
  - destruct (Hh e w1) as [l2 E2]. exists (l1 ++ l2)%list.
    now rewrite E2, E1, app_assoc.
Qed.

(** The file operations print nothing. *)
Ltac silent :=
  intro w; exists []; rewrite app_nil_r; cbv beta delta [bind];
  repeat match goal with
         | |- context [match ?x with _ => _ end] => destruct x
         | |- context [if ?x then _ else _] => destruct x
         end; reflexivity.

Lemma appends_Path_exists p : appends (Path_exists p).
Proof. unfold Path_exists. silent. Qed.

Lemma appends_Path_is_file p : appends (Path_is_file p).
Proof. unfold Path_is_file. silent. Qed.

Lemma appends_Path_glob p pattern : appends (Path_glob p pattern).
Proof. unfold Path_glob. silent. Qed.

Lemma appends_Path_rglob p : appends (Path_rglob p).
Proof. unfold Path_rglob. silent. Qed.

Lemma appends_get_fs : appends get_fs.
Proof. unfold get_fs. silent. Qed.

Lemma appends_Path_iterdir p : appends (Path_iterdir p).
Proof. unfold Path_iterdir. silent. Qed.

Lemma appends_read_bytes p : appends (read_bytes p).
Proof. unfold read_bytes. silent. Qed.

Lemma appends_open_read p : appends (open_read p).
Proof.
  unfold open_read. apply appends_bind; [apply appends_read_bytes|].
  intro data. destruct (decode_text data); [apply appends_ret | apply appends_raise].
Qed.

Lemma appends_Path_mkdir_parents p : appends (Path_mkdir_parents p).
Proof. unfold Path_mkdir_parents. silent. Qed.

Lemma appends_shutil_rmtree p : appends (shutil_rmtree p).
Proof. unfold shutil_rmtree. silent. Qed.

Lemma appends_shutil_copy2 src dst : appends (shutil_copy2 src dst).
Proof. unfold shutil_copy2. silent. Qed.

Lemma appends_tempfile_mkdtemp prefix : appends (tempfile_mkdtemp prefix).
Proof. unfold tempfile_mkdtemp. silent. Qed.

Lemma appends_subprocess_run cmd quiet : appends (subprocess_run cmd quiet).
Proof. unfold subprocess_run. silent. Qed.

Lemma appends_extractall library archive dest :
  appends (extractall library archive dest).
Proof.
  unfold extractall. apply appends_bind; [apply appends_read_bytes|].
  intro bytes. silent.
Qed.

Create HintDb appends.
#[local] Hint Resolve appends_ret appends_raise appends_print_to
  appends_Path_exists appends_Path_is_file appends_Path_glob
  appends_Path_rglob appends_get_fs appends_Path_iterdir appends_read_bytes
  appends_open_read
  appends_Path_mkdir_parents appends_shutil_rmtree appends_shutil_copy2
  appends_tempfile_mkdtemp appends_subprocess_run appends_extractall
  : appends.

(** Going through a function of the script, statement by statement. *)
Ltac through :=
  cbv zeta;
  repeat first
    [ solve [auto with appends]
    | apply appends_print_to
    | apply appends_bind; [|intro]
    | match goal with
      | |- appends (if ?b then _ else _) => destruct b
      | |- appends (match ?o with _ => _ end) => destruct o
      end ].

Lemma appends_for_each {A} (items : list A) (body : A -> M unit) :
  (forall x, appends (body x)) -> appends (for_each items body).
Proof.
  intro H. induction items as [|x rest IH]; simpl; through.
Qed.

Lemma appends_find_package d patterns : appends (find_package d patterns).
Proof. induction patterns as [|pattern rest IH]; simpl; through. Qed.

Lemma appends_extend_with_globs d patterns :
  forall found, appends (extend_with_globs d patterns found).
Proof. induction patterns as [|pattern rest IH]; intro; simpl; through. Qed.

#[local] Hint Resolve appends_find_package appends_extend_with_globs
  : appends.

Lemma appends_clean_build_directory d : appends (clean_build_directory d).
Proof. unfold clean_build_directory. through. Qed.

Lemma appends_configure_cmake d c v : appends (configure_cmake d c v).
Proof. unfold configure_cmake. through. Qed.

Lemma appends_build_project d c j v : appends (build_project d c j v).
Proof. unfold build_project. through. Qed.

Lemma appends_create_package d t v : appends (create_package d t v).
Proof. unfold create_package. through. Qed.

Lemma appends_extract_package f : appends (extract_package f).
Proof.
  unfold extract_package. through; apply appends_for_each; intro; through.
Qed.

Lemma appends_test_package d : appends (test_package d).
Proof. unfold test_package. through. Qed.

Lemma appends_copy_to_output f d : appends (copy_to_output f d).
Proof. unfold copy_to_output. through. Qed.

#[local] Hint Resolve appends_clean_build_directory appends_configure_cmake
  appends_build_project appends_create_package appends_extract_package
  appends_test_package appends_copy_to_output : appends.

Lemma appends_workflow args d o : appends (workflow args d o).
Proof.
  unfold workflow, build_stages, verify_and_publish, publish_and_report.
  through.
Qed.

Lemma appends_on_exception e : appends (on_exception e).
Proof. unfold on_exception. destruct e; through. Qed.

(** C2. Every run writes to the standard output: the blank line that ends
    the banner is printed there, before the first stage starts, and nothing
    printed is taken back. *)
Theorem main_prints_to_stdout (parsed : Args) (w : world) :
  exists before after,
    out (snd (main parsed w))
      = (out w ++ before ++ (Stdout, "") :: after)%list /\
    In "" (printed Stdout (snd (main parsed w))).
Proof.
  destruct (banner_returns parsed w) as [before B].
  pose proof (appends_try_except _ _
                (appends_workflow (resolve parsed) (build_path (resolve parsed))
                                  (output_path (resolve parsed)))
                appends_on_exception) as T.
  unfold main, bind. rewrite B.
  match goal with |- context [try_except ?b ?h ?v] => destruct (T v) as [after E] end.
  exists before, after. cbn [out] in E.
  assert (O : out (snd (try_except
                     (workflow (resolve parsed) (build_path (resolve parsed))
                        (output_path (resolve parsed))) on_exception
                     {| fs := fs w;
                        out := out w ++ before ++ [(Stdout, "")];
                        procs := procs w |}))
              = (out w ++ before ++ (Stdout, "") :: after)%list).
  { rewrite E. rewrite <- !app_assoc. reflexivity. }
  split; [exact O|].
  unfold printed. rewrite O, !filter_app, !map_app. cbn.
  apply in_or_app. right. apply in_or_app. right. now left.
Qed.

(** C3 (as amended). On an extraction root that is a directory, the
    package test returns [False] when the root has no subdirectory, and
    otherwise returns whether the first subdirectory has a [bin] entry: a
    missing [bin] is reported as a warning and the test returns [False];
    a missing [plugins], [config] or [README.txt] never changes the value.
    This is for a [README.txt] that can be shown: one that is a directory,
    or whose bytes do not decode in the encoding of the locale, makes the
    test raise.  The test leaves the filesystem alone and runs nothing. *)
Theorem test_package_status (extract_dir : Path) (w : world)
    (es : list (string * node)) :
  node_at (fs w) extract_dir = Some (Dir es) ->
  match filter (is_dir_in (fs w))
               (map (fun e => Path_div extract_dir (fst e)) es) with
  | [] =>
      exists printed,
        test_package extract_dir w
          = (Ok false, mkWorld (fs w) (out w ++ printed) (procs w))
  | package_dir :: _ =>
      is_dir_in (fs w) (Path_div package_dir "README.txt") = false ->
      (forall x data,
         node_at (fs w) (Path_div package_dir "README.txt") = Some (File x data) ->
         decode_text data <> None) ->
      exists printed,
        test_package extract_dir w
          = (Ok (exists_in (fs w) (Path_div package_dir "bin")),
             mkWorld (fs w) (out w ++ printed) (procs w)) /\
        (exists_in (fs w) (Path_div package_dir "bin") = false ->
         In (Stderr, "[WARNING] Missing bin/ directory") printed /\
         In (Stderr, "[WARNING] Package tests completed with 1 warnings")
            printed)
  end.
Proof.
  intro root. unfold test_package. step. unfold Path_iterdir.
  cbn [fs out procs]. rewrite root. step.
  destruct (filter (is_dir_in (fs w))
              (map (fun e => Path_div extract_dir (fst e)) es))
    as [|package_dir others].
  - step. eexists. rewrite <- !app_assoc. reflexivity.
  - intros readme_ok decodable.
    assert (readable : exists_in (fs w) (Path_div package_dir "README.txt") = true ->
              exists x data text,
                node_at (fs w) (Path_div package_dir "README.txt")
                  = Some (File x data) /\
                decode_text data = Some text).
    { unfold exists_in, is_dir_in in *.
      destruct (node_at (fs w) (Path_div package_dir "README.txt"))
        as [[x data|?]|]; try discriminate; intros _.
      specialize (decodable x data eq_refl).
      destruct (decode_text data) as [text|] eqn:D; [|now elim decodable].
      now exists x, data, text. }
    clear decodable. unfold open_read, read_bytes.
    destruct (exists_in (fs w) (Path_div package_dir "bin")) eqn:has_bin;
    destruct (exists_in (fs w) (Path_div package_dir "plugins")) eqn:has_plugins;
    destruct (exists_in (fs w) (Path_div package_dir "config")) eqn:has_config;
    destruct (exists_in (fs w) (Path_div package_dir "README.txt")) eqn:has_readme;
    try (destruct readable as (x & data & text & R & D); [reflexivity|]);
    repeat (step; cbn [negb Z.eqb plugin_patterns extend_with_globs];
            try match goal with
                | H : ?t = _ |- context [?t] => rewrite H
                end);
    rewrite <- ?app_assoc; cbn [app].
    
    all: eexists; (split; [reflexivity|]); intro B; try discriminate B.
    all: split; cbn [In]; repeat (first [left; reflexivity | right]).
Qed.

(** C1 (as amended). In a run that asked for verification and reached
    extraction: an exception raised by the extraction is fatal ([main]
    prints one error line and returns 1, and nothing runs after the point of
    failure); but an artifact whose suffix is neither [.gz] nor [.zip] only
    makes [extract_package] print an error and return no directory, after
    which the package test is skipped, publishing goes ahead, and [main]
    returns 0 when publishing succeeds. *)
Theorem extraction_failure_outcomes (parsed : Args) (w w2 w3 : world)
    (package_file : Path) :
  let args := resolve parsed in
  let build_dir := build_path args in
  let publish : M unit :=
    match output_path args with
    | Some o => copy_to_output package_file o
    | None => ret tt
    end in
  extract args = true ->
  build_stages args build_dir (snd (banner parsed w)) = (Ok tt, w2) ->
  create_package build_dir (target args) (verbose args) w2
    = (Ok (Some package_file), w3) ->
  (forall e w4,
     extract_package package_file w3 = (Raise e, w4) ->
     exists message,
       main parsed w =
         (Ok 1%Z,
          mkWorld (fs w4) (out w4 ++ [(Stderr, "[ERROR] " ++ message)])
                  (procs w4))) /\
  (forall w4 w5,
     extract_package package_file w3 = (Ok None, w4) ->
     publish w4 = (Ok tt, w5) ->
     exists closing,
       main parsed w =
         (Ok 0%Z,
          mkWorld (fs w5)
            (out w5 ++ (Stdout, "")
                    :: (Stderr, "[SUCCESS] Packaging complete!") :: closing)
            (procs w5))) /\
  (Path_suffix package_file <> ".gz" ->
   Path_suffix package_file <> ".zip" ->
   forall d w4,
     tempfile_mkdtemp "mcf-package-test-"
       (mkWorld (fs w3)
          (out w3 ++ [(Stderr, "[INFO] Extracting package for verification...")])
          (procs w3)) = (Ok d, w4) ->
     extract_package package_file w3 =
       (Ok None,
        mkWorld (fs w4)
          (out w4 ++ [(Stderr, "[ERROR] Unknown package format: "
                               ++ Path_str package_file)])
          (procs w4))).
Proof.
  intros args build_dir publish asked stages packaged.
  destruct (banner_returns parsed w) as [printed B].
  rewrite B in stages. cbn [snd] in stages.
  assert (reach : main parsed w =
            try_except (verify_and_publish args package_file (output_path args))
                       on_exception w3).
  { unfold main. unfold bind at 1. rewrite B. fold args build_dir.
    unfold try_except, workflow. unfold bind at 1. rewrite stages.
    unfold bind at 1. rewrite packaged. reflexivity. }
  rewrite reach. unfold try_except, verify_and_publish. rewrite asked.
  repeat split.
  - intros e w4 failed. unfold bind at 1. rewrite failed.
    unfold on_exception. destruct e; step; eexists; reflexivity.
  - intros w4 w5 nothing published. unfold bind at 1. rewrite nothing.
    unfold bind at 1. replace (if test args then None else None) with (@None Path) by (destruct (test args); reflexivity).
    step. unfold publish_and_report. fold publish. unfold bind at 1. rewrite published.
    step. 
    destruct (output_path args); step; rewrite <- !app_assoc; cbn [app];
      eexists; reflexivity.
  - intros not_gz not_zip d w4 made. unfold extract_package.
    apply String.eqb_neq in not_gz, not_zip.
    step. change ("[INFO] " ++ "Extracting package for verification...")
      with "[INFO] Extracting package for verification...".
    rewrite made, not_gz, not_zip. reflexivity.
Qed.

(** ** Further properties of the script *)

(** *** How a run ends *)

Lemma bind_ok_inv {A B} (m : M A) (k : A -> M B) w b w' :
  bind m k w = (Ok b, w') ->
  exists a w1, m w = (Ok a, w1) /\ k a w1 = (Ok b, w').
Proof.
  unfold bind. destruct (m w) as [[a|e] w1]; [eauto | discriminate].
Qed.

Lemma on_exception_returns (e : exn) (w : world) :
  on_exception e w =
    (Ok 1%Z,
     mkWorld (fs w)
       (out w ++ [(Stderr,
                   "[ERROR] "
                   ++ match e with
                      | CalledProcessError _ _ => "Command failed: "
                      | FileNotFoundError _ => "File not found: "
                      | _ => "Unexpected error: "
                      end ++ str_exn e)])
       (procs w)).
Proof. destruct e; reflexivity. Qed.

Lemma publish_and_report_code f o d w c w' :
  publish_and_report f o d w = (Ok c, w') -> c = 0%Z.
Proof.
  unfold publish_and_report. intro H.
  repeat (apply bind_ok_inv in H; destruct H as (? & ? & _ & H)).
  unfold ret in H. congruence.
Qed.

Lemma workflow_code args d o w c w' :
  workflow args d o w = (Ok c, w') -> c = 0%Z \/ c = 1%Z.
Proof.
  unfold workflow. intro H.
  apply bind_ok_inv in H. destruct H as (? & ? & _ & H).
  apply bind_ok_inv in H. destruct H as ([f|] & ? & _ & H).
  - left. unfold verify_and_publish in H.
    apply bind_ok_inv in H. destruct H as (? & ? & _ & H).
    apply bind_ok_inv in H. destruct H as (? & ? & _ & H).
    eapply publish_and_report_code; eauto.
  - right. apply bind_ok_inv in H. destruct H as (? & ? & _ & H).
    unfold ret in H. congruence.
Qed.

(** X1. [main] never lets an exception out, and the exit status it
    returns is 0 or 1. *)
Theorem main_exit_status (parsed : Args) (w : world) :
  exists code w',
    main parsed w = (Ok code, w') /\ (code = 0%Z \/ code = 1%Z).
Proof.
  destruct (banner_returns parsed w) as [printed B].
  unfold main. unfold bind at 1. rewrite B. unfold try_except.
  match goal with
  | |- context [workflow ?a ?d ?o ?v] =>
      destruct (workflow a d o v) as [[c|e] w1] eqn:W
  end.
  - exists c, w1. split; [reflexivity|]. eapply workflow_code; eauto.
  - rewrite on_exception_returns. eauto.
Qed.

(** X2. An exception in a build stage (cleaning, configuring, building)
    or in the packaging stage ends the run: [main] adds one error line, whose
    wording goes by the kind of exception, returns 1, and leaves the
    filesystem and the list of processes as the failing stage left them. *)
Theorem stage_failure_is_fatal (parsed : Args) (w w' : world) (e : exn) :
  let args := resolve parsed in
  let build_dir := build_path args in
  let w0 := snd (banner parsed w) in
  build_stages args build_dir w0 = (Raise e, w') \/
  (exists w2,
     build_stages args build_dir w0 = (Ok tt, w2) /\
     create_package build_dir (target args) (verbose args) w2 = (Raise e, w')) ->
  main parsed w =
    (Ok 1%Z,
     mkWorld (fs w')
       (out w' ++ [(Stderr,
                    "[ERROR] "
                    ++ match e with
                       | CalledProcessError _ _ => "Command failed: "
                       | FileNotFoundError _ => "File not found: "
                       | _ => "Unexpected error: "
                       end ++ str_exn e)])
       (procs w')).
Proof.
  intros args build_dir w0 H.
  destruct (banner_returns parsed w) as [printed B].
  unfold w0 in H. rewrite B in H. cbn [snd] in H.
  unfold main. unfold bind at 1. rewrite B. fold args build_dir.
  unfold try_except, workflow. unfold bind at 1.
  destruct H as [H|(w2 & H & P)]; rewrite H.
  - apply on_exception_returns.
  - unfold bind at 1. rewrite P. apply on_exception_returns.
Qed.

(** X3. When the build command exits with a nonzero status, the run stops
    there: the last process started is the build command (the packaging
    command is never run), the filesystem is what the build command left,
    and [main] reports "Command failed" and returns 1. *)
Theorem build_failure_is_fatal (parsed : Args) (w w1 : world) (code : Z)
    (after : node) :
  let args := resolve parsed in
  let build_dir := build_path args in
  let build_cmd :=
    build_command build_dir (config args) (jobs args) (verbose args) in
  ((if clean args then clean_build_directory build_dir else ret tt) ;;
   configure_cmake build_dir (config args) (verbose args))
    (snd (banner parsed w)) = (Ok tt, w1) ->
  run_process build_cmd (fs w1) = Exited code after ->
  code <> 0%Z ->
  main parsed w =
    (Ok 1%Z,
     mkWorld after
       (out w1 ++ [(Stderr, "[INFO] Building project dependencies...");
                   (Stderr, "[INFO] Running: " ++ join " " build_cmd);
                   (Stderr, "[ERROR] Command failed: "
                            ++ str_exn (CalledProcessError build_cmd code))])
       (procs w1 ++ [mkCall build_cmd false])).
Proof.
  intros args build_dir build_cmd before run failed.
  destruct (banner_returns parsed w) as [printed B].
  rewrite B in before. cbn [snd] in before.
  apply bind_ok_inv in before. destruct before as ([] & wc & cleaned & configured).
  apply Z.eqb_neq in failed.
  unfold main. unfold bind at 1. rewrite B. fold args build_dir.
  unfold try_except, workflow, build_stages.
  unfold bind at 1. unfold bind at 1. rewrite cleaned.
  unfold bind at 1. rewrite configured.
  unfold build_project. fold build_cmd. step.
  unfold subprocess_run. cbn [fs out procs]. rewrite run, failed.
  rewrite on_exception_returns. cbn [fs out procs].
  now rewrite <- !app_assoc.
Qed.

(** *** What the stages leave alone *)

Lemma observes_ret {A} (a : A) : observes (ret a).
Proof. intro w. now split. Qed.

Lemma observes_print_to (s : stream) (text : string) :
  observes (print_to s text).
Proof. intro w. now split. Qed.

Lemma observes_bind {A B} (m : M A) (k : A -> M B) :
  observes m -> (forall a, observes (k a)) -> observes (bind m k).
Proof.
  intros Hm Hk w. unfold bind. destruct (Hm w) as [F P].
  destruct (m w) as [[a|e] w1]; cbn [snd] in *.
  - destruct (Hk a w1) as [F' P']. split; congruence.
  - now split.
Qed.

(** The queries read the filesystem and nothing more. *)
Ltac looking :=
  intro w; split;
  repeat match goal with
         | |- context [match ?x with _ => _ end] => destruct x
         end; reflexivity.

Lemma observes_Path_exists p : observes (Path_exists p).
Proof. unfold Path_exists. looking. Qed.

Lemma observes_Path_is_file p : observes (Path_is_file p).
Proof. unfold Path_is_file. looking. Qed.

Lemma observes_Path_glob p pattern : observes (Path_glob p pattern).
Proof. unfold Path_glob. looking. Qed.

Lemma observes_Path_rglob p : observes (Path_rglob p).
Proof. unfold Path_rglob. looking. Qed.

Lemma observes_get_fs : observes get_fs.
Proof. unfold get_fs. looking. Qed.

Lemma observes_Path_iterdir p : observes (Path_iterdir p).
Proof. unfold Path_iterdir. looking. Qed.

Lemma observes_raise {A} (e : exn) : observes (@raise A e).
Proof. intro w. now split. Qed.

Lemma observes_read_bytes p : observes (read_bytes p).
Proof. unfold read_bytes. looking. Qed.

Lemma observes_open_read p : observes (open_read p).
Proof.
  unfold open_read. apply observes_bind; [apply observes_read_bytes|].
  intro data. destruct (decode_text data); [apply observes_ret | apply observes_raise].
Qed.

Create HintDb observes.
#[local] Hint Resolve observes_ret observes_print_to observes_Path_exists
  observes_Path_is_file observes_Path_glob observes_Path_rglob
  observes_get_fs observes_Path_iterdir observes_read_bytes observes_open_read
  observes_raise : observes.

Ltac observing :=
  cbv zeta;
  repeat first
    [ solve [auto with observes]
    | apply observes_print_to
    | apply observes_bind; [|intro]
    | match goal with
      | |- observes (if ?b then _ else _) => destruct b
      | |- observes (match ?o with _ => _ end) => destruct o
      end ].


Lemma observes_find_package d patterns : observes (find_package d patterns).
Proof. induction patterns as [|pattern rest IH]; simpl; observing. Qed.

Lemma observes_extend_with_globs d patterns :
  forall found, observes (extend_with_globs d patterns found).
Proof. induction patterns as [|pattern rest IH]; intro; simpl; observing. Qed.

#[local] Hint Resolve observes_find_package observes_extend_with_globs
  : observes.

Lemma observes_test_package d : observes (test_package d).
Proof. unfold test_package. observing. Qed.

(** X4. The package test only looks: whatever the extraction root is, and
    whether the test returns or raises, the filesystem is the same
    afterwards and no process was started. *)
Theorem test_package_leaves_world (extract_dir : Path) (w : world) :
  fs (snd (test_package extract_dir w)) = fs w /\
  procs (snd (test_package extract_dir w)) = procs w.
Proof. apply observes_test_package. Qed.



(** *** Cleaning and configuring together *)

Lemma mkdir_p_cons (c : string) (r : list string)
    (es : list (string * node)) :
  mkdir_p (c :: r) (Dir es) =
  match assoc c es with
  | None => Some (Dir (es ++ [(c, fresh_dirs r)]))
  | Some child =>
      match mkdir_p r child with
      | Some child' => Some (Dir (assoc_set c child' es))
      | None => None
      end
  end.
Proof. reflexivity. Qed.

(** Where something was removed, a directory can be made again. *)
Lemma mkdir_p_after_remove (p : list string) :
  forall n n', remove p n = Some n' -> exists n'', mkdir_p p n' = Some n''.
Proof.
  induction p as [|c p IH]; intros n n' H; [discriminate|].
  destruct n as [x d|es]; [destruct p; discriminate|].
  destruct p as [|b p].
  - simpl in H. destruct (assoc c es); [|discriminate].
    inversion H. simpl. rewrite assoc_del_same. eauto.
  - rewrite remove_cons in H by discriminate.
    destruct (assoc c es) as [child|] eqn:A; [|discriminate].
    destruct (remove (b :: p) child) as [child'|] eqn:R; [|discriminate].
    inversion H. rewrite mkdir_p_cons, assoc_set_same by congruence.
    destruct (IH _ _ R) as [n'' M]. rewrite M. eauto.
Qed.

(** X7. Cleaning defeats the cache check: after a build directory that
    exists has been cleaned, configuring runs the configure command, once and
    with its output shown, whether or not a cache marker was there before.
    This is for a path that has a component of its own (neither ['.'] nor the
    root, which cannot be removed) and no [..] component. *)
Theorem clean_forces_configure (build_dir : Path) (config : BuildType)
    (verbose : bool) (w : world) (es : list (string * node)) :
  parts build_dir <> [] ->
  ~ In ".." (locate build_dir) ->
  node_at (fs w) build_dir = Some (Dir es) ->
  procs (snd ((clean_build_directory build_dir ;;
               configure_cmake build_dir config verbose) w))
    = (procs w ++ [mkCall (configure_command build_dir config verbose) false])%list.
Proof.
  intros np _ N.
  destruct (remove_succeeds _ _ _ (locate_not_root _ np) N) as [tree R].
  destruct (mkdir_p_after_remove _ _ _ R) as [made MK].
  assert (gone : exists_in tree (Path_div build_dir "CMakeCache.txt") = false).
  { unfold exists_in, node_at. rewrite locate_div.
    now rewrite (lookup_below_nothing _ _ _ (lookup_remove _ _ _ R)). }
  unfold clean_build_directory, configure_cmake. step.
  unfold exists_in at 1. rewrite N. unfold shutil_rmtree. cbn [fs out procs].
  rewrite N, R. destruct (parts build_dir) eqn:P; [now elim np|].
  cbn [fs out procs]. rewrite gone. cbn [negb].
  unfold Path_mkdir_parents. cbn [fs out procs]. rewrite MK.
  cbn [fs out procs]. unfold subprocess_run. cbn [fs out procs].
  destruct (run_process (configure_command build_dir config verbose) made)
    as [|code after]; [reflexivity|].
  destruct (Z.eqb code 0); reflexivity.
Qed.

(** *** The artifact *)

Lemma assoc_of_name (name : string) (es : list (string * node)) :
  In name (map fst es) -> assoc name es <> None.
Proof.
  induction es as [|[k v] r IH]; simpl; [intros []|].
  intros [E|I].
  - rewrite E. now rewrite String.eqb_refl.
  - destruct (String.eqb name k); [discriminate | auto].
Qed.

(** X8. With no entry matching [*.tar.gz], the zip pattern is tried next:
    the artifact is the first entry, in enumeration order, that matches
    [*.zip]. *)
Theorem create_package_falls_back_to_zip (build_dir : Path) (target : string)
    (verbose : bool) (w : world) (after : node)
    (es : list (string * node)) (zip : string) :
  run_process (package_command build_dir target verbose) (fs w)
    = Exited 0 after ->
  node_at after build_dir = Some (Dir es) ->
  (forall name, In name (map fst es) -> glob_match "*.tar.gz" name = false) ->
  In zip (map fst es) -> glob_match "*.zip" zip = true ->
  exists earlier name later,
    map fst es = (earlier ++ name :: later)%list /\
    glob_match "*.zip" name = true /\
    (forall other, In other earlier -> glob_match "*.zip" other = false) /\
    create_package build_dir target verbose w =
      (Ok (Some (Path_div build_dir name)),
       mkWorld after
         (out w ++ [(Stderr, "[INFO] Creating package: " ++ target);
                    (Stderr, "[SUCCESS] Package created: " ++ name)])
         (procs w ++ [mkCall (package_command build_dir target verbose)
                             (negb verbose)])).
Proof.
  intros run listing no_gz Izip Mzip.
  destruct (filter_first _ _ _ Izip Mzip)
    as (earlier & name & later & E & M & N & F).
  exists earlier, name, later. repeat split; auto.
  unfold create_package. step. unfold subprocess_run. cbn [fs out procs].
  rewrite run. cbn [Z.eqb fs out procs package_patterns find_package]. step.
  unfold glob_in. rewrite listing, (filter_none _ _ no_gz).
  cbn [map fs out procs]. rewrite listing, F.
  cbn [map fs out procs]. rewrite Path_name_div. now rewrite <- app_assoc.
Qed.

Lemma create_package_finds (build_dir : Path) (target : string)
    (verbose : bool) (w w' : world) (f : Path) :
  create_package build_dir target verbose w = (Ok (Some f), w') ->
  run_process (package_command build_dir target verbose) (fs w)
    = Exited 0 (fs w') /\
  exists name,
    f = Path_div build_dir name /\
    (glob_match "*.tar.gz" name = true \/ glob_match "*.zip" name = true) /\
    exists_in (fs w') f = true.
Proof.
  clear cpu_count mkdtemp_pick tar_extractall zip_extractall str_exn decode_text.
  unfold create_package. step. unfold subprocess_run. cbn [fs out procs].
  destruct (run_process (package_command build_dir target verbose) (fs w))
    as [|code after] eqn:run; [discriminate|].
  destruct (Z.eqb code 0) eqn:Z0; [|discriminate].
  apply Z.eqb_eq in Z0. subst code.
  cbn [fs out procs package_patterns find_package]. step.
  assert (found : forall pattern name rest,
            glob_in after build_dir pattern = Path_div build_dir name :: rest ->
            glob_match pattern name = true /\
            exists_in after (Path_div build_dir name) = true).
  { intros pattern name rest G. unfold glob_in in G.
    destruct (node_at after build_dir) as [[?|es]|] eqn:N; try discriminate.
    destruct (filter (glob_match pattern) (map fst es)) as [|first more] eqn:F;
      [discriminate|].
    cbn [map] in G. inversion G as [[Hname Hrest]].
    assert (first = name).
    { unfold Path_div in Hname. inversion Hname as [Hp].
      now apply app_inv_head in Hp; inversion Hp. }
    subst first.
    assert (I : In name (filter (glob_match pattern) (map fst es)))
      by (rewrite F; now left).
    apply filter_In in I. destruct I as [I M]. split; [exact M|].
    unfold exists_in, node_at in *. rewrite locate_div, lookup_app, N.
    cbn [lookup]. pose proof (assoc_of_name _ _ I) as A.
    destruct (assoc name es); [reflexivity | now elim A]. }
  assert (shape : forall pattern, exists names,
            glob_in after build_dir pattern = map (Path_div build_dir) names).
  { intro pattern. unfold glob_in.
    destruct (node_at after build_dir) as [[?|es]|]; try (now exists []).
    eauto. }
  destruct (shape "*.tar.gz") as [[|gz gzs] G1]; rewrite G1;
    cbn [map fs out procs].
  - destruct (shape "*.zip") as [[|zp zps] G2]; rewrite G2; cbn [map]; step.
    + discriminate.
    + intro H. inversion H as [[Hf Hw]]. cbn [fs]. split; [reflexivity|].
      exists zp. destruct (found _ _ _ G2). auto.
  - step. intro H. inversion H as [[Hf Hw]]. cbn [fs]. split; [reflexivity|].
    exists gz. destruct (found _ _ _ G1). auto.
Qed.

(** X9. Whenever the package stage returns an artifact, the packaging
    command has exited with status 0, and the artifact is an entry of the
    build directory, present in the filesystem the command left, whose name
    matches [*.tar.gz] or [*.zip]. *)
Theorem create_package_result (build_dir : Path) (target : string)
    (verbose : bool) (w w' : world) (f : Path) :
  create_package build_dir target verbose w = (Ok (Some f), w') ->
  run_process (package_command build_dir target verbose) (fs w)
    = Exited 0 (fs w') /\
  exists name,
    f = Path_div build_dir name /\
    (glob_match "*.tar.gz" name = true \/ glob_match "*.zip" name = true) /\
    exists_in (fs w') f = true.
Proof. apply create_package_finds. Qed.

(** *** Patterns and suffixes *)

Lemma fnmatch_star (pat s : string) :
  fnmatch (String "*" pat) s =
  fnmatch pat s ||
  match s with
  | EmptyString => false
  | String _ s' => fnmatch (String "*" pat) s'
  end.
Proof. destruct s; reflexivity. Qed.

(** A leading star lets the rest of the pattern match an end of the name. *)
Lemma fnmatch_star_inv (pat s : string) :
  fnmatch (String "*" pat) s = true ->
  exists before rest, s = before ++ rest /\ fnmatch pat rest = true.
Proof.
  induction s as [|c s IH]; rewrite fnmatch_star; intro H;
    apply orb_true_iff in H; destruct H as [H|H]; try discriminate.
  - now exists "", "".
  - now exists "", (String c s).
  - destruct (IH H) as (before & rest & -> & M).
    now exists (String c before), rest.
Qed.

(** A pattern without wildcards matches itself only. *)
Lemma fnmatch_literal (lit : string) :
  (forall c, In c (list_ascii_of_string lit) ->
             Ascii.eqb c "*" = false /\ Ascii.eqb c "?" = false) ->
  forall s, fnmatch lit s = true -> s = lit.
Proof.
  induction lit as [|p lit IH]; intros plain s H.
  - destruct s; [reflexivity | discriminate].
  - destruct (plain p) as [not_star not_mark]; [now left|].
    cbn [fnmatch] in H. rewrite not_star, not_mark in H.
    destruct s as [|c s]; [discriminate|].
    apply andb_true_iff in H. destruct H as [E M].
    apply Ascii.eqb_eq in E. subst c. f_equal.
    apply IH; [|exact M]. intros c I. apply plain. now right.
Qed.

(** The last dot of a name is the last dot of its end, when the end has
    one. *)
Lemma from_last_dot_app (before rest : string) :
  from_last_dot rest <> None ->
  from_last_dot (before ++ rest) = from_last_dot rest.
Proof.
  intro H. induction before as [|c before IH]; [reflexivity|].
  cbn [append from_last_dot]. rewrite IH.
  destruct (from_last_dot rest); [reflexivity | now elim H].
Qed.

(** X10. On a host that compares names with case, the name of an entry
    that matches [*.tar.gz] has the suffix [.gz], and the name of an entry
    that matches [*.zip] has the suffix [.zip] unless the name is just
    [.zip]: that one name apart, what artifact discovery selects is an
    archive [extract_package] has a branch for. *)
Theorem matched_artifact_suffix (build_dir : Path) (name : string) :
  platform_system <> "Windows" ->
  (glob_match "*.tar.gz" name = true ->
   Path_suffix (Path_div build_dir name) = ".gz") /\
  (glob_match "*.zip" name = true ->
   name = ".zip" \/ Path_suffix (Path_div build_dir name) = ".zip").
Proof.
  intro posix. apply String.eqb_neq in posix.
  unfold glob_match, Path_suffix. rewrite posix, Path_name_div.
  split; intro M; apply fnmatch_star_inv in M;
    destruct M as (before & rest & -> & M);
    apply fnmatch_literal in M;
    try (intros c I; cbn in I;
         repeat (destruct I as [<-|I]; [split; reflexivity|]); contradiction);
    subst rest.
  - destruct before as [|c before]; [reflexivity|].
    unfold name_suffix. cbn [append].
    rewrite from_last_dot_app by discriminate. reflexivity.
  - destruct before as [|c before]; [now left | right].
    unfold name_suffix. cbn [append].
    rewrite from_last_dot_app by discriminate. reflexivity.
Qed.

(** *** Publishing *)

Lemma components_eqb_refl (p : list string) : components_eqb p p = true.
Proof.
  induction p as [|a p IH]; [reflexivity|].
  simpl. now rewrite String.eqb_refl.
Qed.

(** X11. Publishing into the directory that already holds the artifact
    fails: the copy would be onto the artifact itself, [shutil.copy2]
    raises, and the filesystem is left as it was. *)
Theorem copy_onto_itself_fails (package_file output_dir : Path) (w : world)
    (x : bool) (data : string) :
  node_at (fs w) package_file = Some (File x data) ->
  locate package_file = (locate output_dir ++ [Path_name package_file])%list ->
  copy_to_output package_file output_dir w =
    (Raise (OSError "SameFileError" (Path_str package_file)),
     mkWorld (fs w)
       (out w ++ [(Stderr, "[INFO] Copying package to output directory...")])
       (procs w)).
Proof.
  intros src inside.
  assert (there : node_at (fs w)
                    (Path_div output_dir (Path_name package_file))
                  = Some (File x data)).
  { unfold node_at in *. now rewrite locate_div, <- inside. }
  assert (exists es, lookup (locate output_dir) (fs w) = Some (Dir es))
    as [es D].
  { unfold node_at in src. rewrite inside, lookup_app in src.
    destruct (lookup (locate output_dir) (fs w)) as [[y e|es]|];
      try discriminate. eauto. }
  unfold copy_to_output. step. unfold Path_mkdir_parents. cbn [fs out procs].
  rewrite (mkdir_p_existing _ _ _ D). cbn [fs out procs].
  unfold shutil_copy2. cbn [fs out procs].
  unfold is_dir_in, exists_in. rewrite there. cbn [is_dir_node].
  rewrite there, src, locate_div, <- inside, components_eqb_refl.
  reflexivity.
Qed.

(** *** The processes a run starts *)

Lemma spawns_of_observes {A} (m : M A) : observes m -> spawns_nothing m.
Proof. intros H w. apply H. Qed.

Lemma spawns_raise {A} (e : exn) : spawns_nothing (@raise A e).
Proof. intro w. reflexivity. Qed.

Lemma spawns_bind {A B} (m : M A) (k : A -> M B) :
  spawns_nothing m -> (forall a, spawns_nothing (k a)) ->
  spawns_nothing (bind m k).
Proof.
  intros Hm Hk w. unfold bind. pose proof (Hm w) as P.
  destruct (m w) as [[a|e] w1]; cbn [snd] in *.
  - now rewrite Hk.
  - exact P.
Qed.

(** The file operations start no process. *)
Ltac idle :=
  intro w;
  repeat match goal with
         | |- context [match ?x with _ => _ end] => destruct x
         | |- context [if ?x then _ else _] => destruct x
         end; reflexivity.

Lemma spawns_Path_mkdir_parents p : spawns_nothing (Path_mkdir_parents p).
Proof. unfold Path_mkdir_parents. idle. Qed.

Lemma spawns_shutil_rmtree p : spawns_nothing (shutil_rmtree p).
Proof. unfold shutil_rmtree. idle. Qed.

Lemma spawns_shutil_copy2 src dst : spawns_nothing (shutil_copy2 src dst).
Proof. unfold shutil_copy2. idle. Qed.

Lemma spawns_tempfile_mkdtemp prefix :
  spawns_nothing (tempfile_mkdtemp prefix).
Proof. unfold tempfile_mkdtemp. idle. Qed.

Lemma spawns_extractall library archive dest :
  spawns_nothing (extractall library archive dest).
Proof.
  unfold extractall. apply spawns_bind.
  - apply spawns_of_observes, observes_read_bytes.
  - intro bytes. idle.
Qed.

Create HintDb spawns.
#[local] Hint Resolve spawns_raise spawns_Path_mkdir_parents
  spawns_shutil_rmtree spawns_shutil_copy2 spawns_tempfile_mkdtemp
  spawns_extractall : spawns.












(** *** The README on display *)

Lemma string_of_rev_cons (c : ascii) (cur : list ascii) (s : string) :
  string_of_list_ascii (rev (c :: cur)) ++ s
  = string_of_list_ascii (rev cur) ++ String c s.
Proof.
  cbn [rev]. generalize (rev cur) as l. intro l.
  induction l as [|a l IH]; cbn; [reflexivity | now rewrite IH].
Qed.

Lemma append_empty (s : string) : s ++ "" = s.
Proof. induction s as [|c s IH]; cbn; [reflexivity | now rewrite IH]. Qed.

Lemma append_assoc (a b c : string) : (a ++ b) ++ c = a ++ (b ++ c).
Proof. induction a as [|x a IH]; cbn; [reflexivity | now rewrite IH]. Qed.

Lemma join_cons (l : string) (ls : list string) :
  join "" (l :: ls) = l ++ join "" ls.
Proof.
  unfold join. destruct ls as [|m ls]; cbn [String.concat].
  - now rewrite append_empty.
  - reflexivity.
Qed.

(** Joining the lines gives the text back. *)
Lemma join_split_lines (s : string) :
  forall cur,
  join "" (split_lines cur s) = string_of_list_ascii (rev cur) ++ s.
Proof.
  induction s as [|c s IH]; intro cur; cbn [split_lines].
  - destruct cur as [|a cur]; [reflexivity|].
    rewrite join_cons. reflexivity.
  - destruct (Ascii.eqb c LF).
    + rewrite join_cons, IH. cbn [rev string_of_list_ascii append].
      apply string_of_rev_cons.
    + rewrite IH. apply string_of_rev_cons.
Qed.

Lemma join_app (ls ms : list string) :
  join "" (ls ++ ms) = join "" ls ++ join "" ms.
Proof.
  induction ls as [|l ls IH]; [reflexivity|].
  change ((l :: ls) ++ ms)%list with (l :: (ls ++ ms))%list.
  now rewrite !join_cons, IH, append_assoc.
Qed.

(** X13. When the package has a regular file [README.txt] whose bytes decode
    in the encoding of the locale, the package test sends three things to
    the standard output: a separator, the first 20 lines of the text joined,
    and a separator.  What is shown is a beginning of the text (line ends
    normalized), and the whole of it when the text has at most 20 lines.
    When the bytes do not decode, the first separator is all that reaches
    the standard output, and the test raises [UnicodeDecodeError]. *)
Theorem readme_display (extract_dir package_dir : Path) (others : list Path)
    (w : world) (es : list (string * node)) (x : bool) (data : string) :
  node_at (fs w) extract_dir = Some (Dir es) ->
  filter (is_dir_in (fs w))
         (map (fun e => Path_div extract_dir (fst e)) es)
    = package_dir :: others ->
  node_at (fs w) (Path_div package_dir "README.txt") = Some (File x data) ->
  match decode_text data with
  | Some text =>
      let shown := join "" (firstn 20 (readlines text)) in
      printed Stdout (snd (test_package extract_dir w))
        = (printed Stdout w ++ [separator; shown; separator])%list /\
      exists rest,
        universal_newlines text = shown ++ rest /\
        ((List.length (readlines text) <= 20)%nat -> rest = "")
  | None =>
      printed Stdout (snd (test_package extract_dir w))
        = (printed Stdout w ++ [separator])%list /\
      fst (test_package extract_dir w)
        = Raise (UnicodeDecodeError
                   (Path_str (Path_div package_dir "README.txt")))
  end.
Proof.
  intros root first readme.
  assert (has_readme : exists_in (fs w) (Path_div package_dir "README.txt") = true)
    by (unfold exists_in; now rewrite readme).
  destruct (decode_text data) as [text|] eqn:D.
  - intro shown. split.
    + unfold test_package. step. unfold Path_iterdir.
      cbn [fs out procs]. rewrite root. step. rewrite first.
      unfold open_read, read_bytes.
      destruct (exists_in (fs w) (Path_div package_dir "bin")) eqn:has_bin;
      destruct (exists_in (fs w) (Path_div package_dir "plugins")) eqn:has_plugins;
      destruct (exists_in (fs w) (Path_div package_dir "config")) eqn:has_config;
      repeat (step; cbn [negb Z.eqb plugin_patterns extend_with_globs];
              try match goal with
                  | H : ?t = _ |- context [?t] => rewrite H
                  end);
      rewrite <- ?app_assoc; cbn [app];
      unfold printed; cbn [out]; rewrite filter_app, map_app; reflexivity.
    + exists (join "" (skipn 20 (readlines text))). split.
      * unfold shown. rewrite <- join_app, firstn_skipn.
        unfold readlines. exact (eq_sym (join_split_lines _ [])).
      * intro short. rewrite skipn_all2 by exact short. reflexivity.
  - unfold test_package. step. unfold Path_iterdir.
    cbn [fs out procs]. rewrite root. step. rewrite first.
    unfold open_read, read_bytes.
    destruct (exists_in (fs w) (Path_div package_dir "bin")) eqn:has_bin;
    destruct (exists_in (fs w) (Path_div package_dir "plugins")) eqn:has_plugins;
    destruct (exists_in (fs w) (Path_div package_dir "config")) eqn:has_config;
    repeat (step; cbn [negb Z.eqb plugin_patterns extend_with_globs];
            try match goal with
                | H : ?t = _ |- context [?t] => rewrite H
                end);
    rewrite <- ?app_assoc; cbn [app];
    (split; [|reflexivity]);
    unfold printed; cbn [out]; rewrite filter_app, map_app; reflexivity.
Qed.

(** *** What exit status 0 vouches for *)

(** Putting a node at a path that is not a directory keeps every other
    regular file. *)
Lemma put_keeps_other_files (p : list string) (v : node) :
  forall q n n' x d,
  put p v n = Some n' ->
  (forall es, lookup p n <> Some (Dir es)) ->
  q <> p ->
  lookup q n = Some (File x d) -> lookup q n' = Some (File x d).
Proof.
  induction p as [|c p IH]; intros q n n' x d P free ne L; [discriminate|].
  destruct n as [y e|es]; [destruct p; discriminate|].
  destruct q as [|b q]; [discriminate|].
  cbn [lookup] in L. destruct (assoc b es) as [ch|] eqn:B; [|discriminate].
  destruct p as [|a p].
  - simpl in P, free. destruct (assoc c es) as [old|] eqn:C; inversion P.
    + cbn [lookup]. destruct (string_dec b c) as [->|nbc].
      * rewrite B in C. inversion C. subst old.
        destruct q as [|b' q]; [now elim ne|].
        destruct ch as [?|sub]; [discriminate | now elim (free sub)].
      * rewrite assoc_set_other by assumption. now rewrite B.
    + cbn [lookup]. now rewrite (assoc_app_found _ _ _ _ B).
  - rewrite put_cons in P by discriminate.
    destruct (assoc c es) as [child|] eqn:C; [|discriminate].
    destruct (put (a :: p) v child) as [child'|] eqn:R; [|discriminate].
    inversion P. cbn [lookup].
    destruct (string_dec b c) as [->|nbc].
    + rewrite assoc_set_same by congruence.
      rewrite B in C. inversion C. subst ch.
      eapply IH; eauto.
      * intro sub. specialize (free sub). cbn [lookup] in free.
        now rewrite B in free.
      * intro E. apply ne. now rewrite E.
    + rewrite assoc_set_other by assumption. now rewrite B.
Qed.

Lemma copy_to_output_inv (f o : Path) (w w2 : world) :
  copy_to_output f o w = (Ok tt, w2) ->
  exists x data dst,
    (dst = Path_div o (Path_name f) \/
     dst = Path_div (Path_div o (Path_name f)) (Path_name f)) /\
    node_at (fs w2) dst = Some (File x data) /\
    node_at (fs w2) f = Some (File x data).
Proof.
  unfold copy_to_output. step. unfold Path_mkdir_parents. cbn [fs out procs].
  destruct (mkdir_p (locate o) (fs w)) as [made|]; [|discriminate].
  cbn [fs out procs]. unfold shutil_copy2. cbn [fs out procs].
  set (dst := if is_dir_in made (Path_div o (Path_name f))
              then Path_div (Path_div o (Path_name f)) (Path_name f)
              else Path_div o (Path_name f)).
  destruct (exists_in made f && exists_in made dst
            && components_eqb (locate f) (locate dst)) eqn:same;
    [discriminate|].
  destruct (node_at made f) as [[x data|?]|] eqn:src; try discriminate.
  destruct (is_dir_in made dst) eqn:isdir; [discriminate|].
  destruct (put (locate dst) (File x data) made) as [tree|] eqn:P;
    [|discriminate].
  cbn [fs out procs]. intro H. inversion H. cbn [fs].
  exists x, data, dst. split; [|split].
  - unfold dst. destruct (is_dir_in made (Path_div o (Path_name f))); auto.
  - unfold node_at. eapply lookup_put; eauto.
  - unfold node_at in *. eapply put_keeps_other_files; eauto.
    + intros es E. unfold is_dir_in, node_at in isdir. now rewrite E in isdir.
    + intro E. rewrite E, components_eqb_refl, andb_true_r in same.
      unfold exists_in, node_at in same. rewrite <- E, src in same.
      discriminate.
Qed.

(** X14. Exit status 0 with an output directory given vouches for the
    copy: the artifact is an entry of the build directory whose name matches
    [*.tar.gz] or [*.zip]; at the end of the run it is a regular file, and a
    regular file with the same contents and the same name is in the output
    directory (or, when a directory of that name was in the way there,
    inside that directory). *)
Theorem success_means_published (parsed : Args) (w w' : world) (o : Path) :
  let args := resolve parsed in
  main parsed w = (Ok 0%Z, w') ->
  output_path args = Some o ->
  exists name x data dst,
    (glob_match "*.tar.gz" name = true \/ glob_match "*.zip" name = true) /\
    (dst = Path_div o name \/ dst = Path_div (Path_div o name) name) /\
    node_at (fs w') (Path_div (build_path args) name) = Some (File x data) /\
    node_at (fs w') dst = Some (File x data).
Proof.
  intros args run given.
  destruct (banner_returns parsed w) as [printed B].
  unfold main in run. unfold bind at 1 in run. rewrite B in run.
  fold args in run. unfold try_except in run.
  destruct (workflow args (build_path args) (output_path args) _)
    as [[c|e] v1] eqn:W.
  2:{ rewrite on_exception_returns in run. discriminate. }
  inversion run. subst c v1. clear run.
  unfold workflow in W.
  apply bind_ok_inv in W. destruct W as (? & w3 & _ & W).
  apply bind_ok_inv in W. destruct W as ([f|] & w4 & packaged & W).
  2:{ apply bind_ok_inv in W. destruct W as (? & ? & _ & W). discriminate. }
  destruct (create_package_finds _ _ _ _ _ _ packaged)
    as (_ & name & -> & matches & _).
  unfold verify_and_publish in W.
  apply bind_ok_inv in W. destruct W as (ed & w5 & _ & W).
  apply bind_ok_inv in W. destruct W as (? & w6 & _ & W).
  unfold publish_and_report in W. rewrite given in W.
  apply bind_ok_inv in W. destruct W as ([] & w7 & copied & W).
  assert (same : fs w' = fs w7).
  { match type of W with
    | ?rest w7 = _ =>
        assert (O : observes rest) by observing;
        destruct (O w7) as [F _]; rewrite W in F; exact F
    end. }
  destruct (copy_to_output_inv _ _ _ _ copied)
    as (mode & data & dst & D & there & src).
  rewrite Path_name_div in D.
  exists name, mode, data, dst. rewrite same. auto.
Qed.

End Pipeline.

(** ** The claims at work on the stand-in host *)

Import Fixture.

Lemma fake_cmake_leaves_marker (artifact : option string)
    (config : BuildType) (verbose : bool) (tree after : node) :
  fake_cmake artifact (configure_command (Path_of "build") config verbose) tree
    = Exited 0 after ->
  exists_in [] after (Path_div (Path_of "build") "CMakeCache.txt") = true.
Proof.
  intro H.
  assert (E : fake_cmake artifact
                (configure_command (Path_of "build") config verbose) tree
              = match put ["build"; "CMakeCache.txt"] (File false "") tree with
                | Some t => Exited 0 t
                | None => Exited 1 tree
                end) by (destruct verbose; reflexivity).
  rewrite E in H.
  destruct (put ["build"; "CMakeCache.txt"] (File false "") tree)
    as [tree'|] eqn:P; inversion H; subst.
  change (exists_in [] after (Path_div (Path_of "build") "CMakeCache.txt"))
    with (match lookup ["build"; "CMakeCache.txt"] after with
          | Some _ => true
          | None => false
          end).
  now rewrite (lookup_put _ _ _ _ P).
Qed.

(** [-t my_app] goes on as [package-my_app]. *)
Lemma target_normalization_witness :
  startswith required_prefix (target plain_args) = false /\
  target (resolve None plain_args) = "package-my_app".
Proof.
  split; [reflexivity|].
  exact (proj1 (target_normalization None plain_args) eq_refl).
Defined.

(** No job count given, and no CPU count to be had: four jobs. *)
Lemma job_count_resolution_witness :
  jobs plain_args = 0%Z /\ jobs (resolve None plain_args) = 4%Z.
Proof.
  split; [reflexivity|].
  exact (proj1 (job_count_resolution None plain_args) eq_refl eq_refl).
Defined.

(** Cleaning [build] on a disk that has it. *)
Lemma clean_build_directory_idempotent_witness :
  parts (Path_of "build") <> [] /\
  ~ In ".." (locate [] (Path_of "build")) /\
  exists tree,
    fst (clean_build_directory [] (Path_of "build") start_with_zip) = Ok tt /\
    fs (snd (clean_build_directory [] (Path_of "build") start_with_zip)) = tree /\
    exists_in [] tree (Path_of "build") = false.
Proof.
  assert (named : parts (Path_of "build") <> []) by discriminate.
  assert (plain : ~ In ".." (locate [] (Path_of "build")))
    by (intros [E|[]]; discriminate E).
  split; [exact named|]. split; [exact plain|].
  destruct (clean_build_directory_idempotent [] (Path_of "build")
              start_with_zip named plain) as (tree & E & gone & _ & _).
  exists tree. rewrite E. repeat split.
  unfold exists_in, node_at. specialize (gone []).
  rewrite app_nil_r in gone. now rewrite gone.
Defined.

(** Configuring twice with the stand-in build system: one command. *)
Lemma configure_cmake_at_most_once_witness :
  let first := configure_cmake [] (fake_cmake None) (Path_of "build")
                 Release false start in
  fst first = Ok tt /\
  (List.length (procs (snd first)) <= 1)%nat /\
  procs (snd (configure_cmake [] (fake_cmake None) (Path_of "build")
                Debug true (snd first)))
    = procs (snd first).
Proof.
  cbv zeta.
  destruct (proj2 (configure_cmake_at_most_once [] (fake_cmake None)
                     (Path_of "build") start)
              Release false Debug true
              (snd (configure_cmake [] (fake_cmake None) (Path_of "build")
                      Release false start))
              (fake_cmake_leaves_marker None)
              eq_refl) as [once again].
  split; [reflexivity|]. split; [exact once|]. now rewrite again.
Defined.

(** A zip archive was there first; the packaging target adds a gzip-tar
    archive; the gzip-tar archive is the artifact. *)
Lemma create_package_prefers_tar_gz_witness :
  exists name,
    glob_match "Linux" "*.tar.gz" name = true /\
    fst (create_package [] "Linux" (fake_cmake (Some "my_app-1.0.0.tar.gz"))
           (Path_of "build") "package-my_app" false start_with_zip)
      = Ok (Some (Path_div (Path_of "build") name)).
Proof.
  edestruct (create_package_prefers_tar_gz [] "Linux"
               (fake_cmake (Some "my_app-1.0.0.tar.gz"))
               (Path_of "build") "package-my_app" false start_with_zip)
    with (gz := "my_app-1.0.0.tar.gz") (zip := "my_app-1.0.0.zip")
    as (earlier & name & later & _ & M & _ & C).
  - vm_compute. reflexivity.
  - vm_compute. reflexivity.
  - vm_compute. tauto.
  - reflexivity.
  - vm_compute. tauto.
  - reflexivity.
  - exists name. split; [exact M|]. now rewrite C.
Defined.

(** A packaging target that writes no archive: exit status 1. *)
Lemma no_artifact_is_fatal_witness :
  fst (main [] "Linux" None (fake_cmake None) pick_tmp
         (unpack full_package) (unpack full_package) render ascii_locale
         plain_args start) = Ok 1%Z.
Proof.
  erewrite (no_artifact_is_fatal [] "Linux" None (fake_cmake None) pick_tmp
              (unpack full_package) (unpack full_package) render ascii_locale
              plain_args start).
  - reflexivity.
  - vm_compute. reflexivity.
  - vm_compute. reflexivity.
  - intros es name pattern N. vm_compute in N. inversion N. subst es.
    intros [<-|[]] [<-|[<-|[]]]; reflexivity.
Defined.


(** A package with a README and no [bin]: the test returns [False] with
    warnings. *)
Lemma test_package_status_witness :
  exists printed,
    test_package [] "Linux" ascii_locale (Path_of "/tmp/mcf-package-test-k3v9x2")
      start_unpacked
      = (Ok false, mkWorld unpacked_disk printed []) /\
    In (Stderr, "[WARNING] Missing bin/ directory") printed.
Proof.
  assert (decodable : forall x data,
            node_at [] unpacked_disk
              (Path_of "/tmp/mcf-package-test-k3v9x2/my_app/README.txt")
              = Some (File x data) ->
            ascii_locale data <> None).
  { intros x data H. vm_compute in H. inversion H. discriminate. }
  destruct (test_package_status [] "Linux" ascii_locale
              (Path_of "/tmp/mcf-package-test-k3v9x2") start_unpacked
              package_without_bin eq_refl eq_refl decodable)
    as (printed & T & W).
  exists printed. split; [exact T|]. exact (proj1 (W eq_refl)).
Defined.

(** Two runs that ask for verification.  With an archive library that
    rejects the archive, extraction raises and the exit status is 1.  On Windows, where
    [*.zip] also matches [my_app-1.0.0.ZIP], the suffix [.ZIP] is not one
    [extract_package] knows: it returns no directory, and the exit status
    is 0. *)
Lemma extraction_failure_outcomes_witness :
  fst (main [] "Linux" None (fake_cmake (Some "my_app-1.0.0.tar.gz")) pick_tmp
         refuse refuse render ascii_locale verify_args start)
    = Ok 1%Z /\
  fst (main [] "Windows" None (fake_cmake (Some "my_app-1.0.0.ZIP")) pick_tmp
         (unpack full_package) (unpack full_package) render ascii_locale
         verify_args start)
    = Ok 0%Z.
Proof.
  split.
  - edestruct (extraction_failure_outcomes [] "Linux" None
                 (fake_cmake (Some "my_app-1.0.0.tar.gz")) pick_tmp
                 refuse refuse render ascii_locale verify_args start)
      as (fatal & _ & _).
    + reflexivity.
    + vm_compute. reflexivity.
    + vm_compute. reflexivity.
    + edestruct fatal as [message E].
      * vm_compute. reflexivity.
      * rewrite E. reflexivity.
  - edestruct (extraction_failure_outcomes [] "Windows" None
                 (fake_cmake (Some "my_app-1.0.0.ZIP")) pick_tmp
                 (unpack full_package) (unpack full_package) render ascii_locale
                 verify_args start)
      as (_ & goes_on & _).
    + reflexivity.
    + vm_compute. reflexivity.
    + vm_compute. reflexivity.
    + edestruct goes_on as [closing E].
      * vm_compute. reflexivity.
      * vm_compute. reflexivity.
      * rewrite E. reflexivity.
Defined.

(** C1, as stated, fails: on Windows the artifact [my_app-1.0.0.ZIP] is
    found by the pattern [*.zip]; verification was asked for; extraction
    reports the unknown format; and yet the artifact is published and the
    exit status is 0, not 1. *)
Lemma unsupported_archive_is_not_fatal :
  let run := main [] "Windows" None (fake_cmake (Some "my_app-1.0.0.ZIP"))
               pick_tmp (unpack full_package) (unpack full_package) render ascii_locale
               verify_args start in
  extract (resolve None verify_args) = true /\
  In (Stderr, "[ERROR] Unknown package format: build/my_app-1.0.0.ZIP")
     (out (snd run)) /\
  fst run <> Ok 1%Z /\
  fst run = Ok 0%Z /\
  node_at [] (fs (snd run)) (Path_of "dist/my_app-1.0.0.ZIP")
    = Some (File false archive_bytes).
Proof.
  vm_compute. repeat split; try discriminate.
  repeat (first [left; reflexivity | right]).
Qed.

(** The same on a case-sensitive host, with an artifact called [.zip]: the
    pattern [*.zip] matches it, and it has no suffix. *)
Example dot_zip_is_not_fatal :
  let run := main [] "Linux" None (fake_cmake (Some ".zip"))
               pick_tmp (unpack full_package) (unpack full_package) render ascii_locale
               verify_args start in
  Path_suffix (Path_of "build/.zip") = "" /\
  In (Stderr, "[ERROR] Unknown package format: build/.zip") (out (snd run)) /\
  fst run = Ok 0%Z.
Proof.
  vm_compute. repeat split.
  repeat (first [left; reflexivity | right]).
Qed.

(** C8, as stated, fails: the build directory ['.'] exists, and cleaning it
    does not remove it: its entries are deleted, [shutil.rmtree] raises, the
    directory is still there, and the run ends with status 1. *)
Lemma cleaning_the_working_directory_fails :
  let here := Path_of "." in
  let cleaned := clean_build_directory [] here start_with_zip in
  exists_in [] (fs start_with_zip) here = true /\
  fst cleaned = Raise (OSError "OSError" ".") /\
  fst cleaned <> Ok tt /\
  node_at [] (fs (snd cleaned)) here = Some (Dir []) /\
  fst (main [] "Linux" None (fake_cmake (Some "my_app-1.0.0.tar.gz")) pick_tmp
         (unpack full_package) (unpack full_package) render ascii_locale
         clean_here_args start_with_zip) = Ok 1%Z.
Proof. vm_compute. repeat split; discriminate. Qed.


(** C3, as stated, fails: the extraction root has a package directory, so
    step 1 passes, but the package has no [bin], and the test returns
    [False]. *)
Lemma missing_bin_fails_the_test :
  let root := Path_of "/tmp/mcf-package-test-k3v9x2" in
  let subdirs :=
    filter (is_dir_in [] unpacked_disk)
           (map (fun e => Path_div root (fst e)) package_without_bin) in
  ~ (fst (test_package [] "Linux" ascii_locale root start_unpacked) = Ok false ->
     subdirs = []).
Proof.
  cbv zeta. intro claim.
  assert (failed : fst (test_package [] "Linux" ascii_locale
                          (Path_of "/tmp/mcf-package-test-k3v9x2")
                          start_unpacked) = Ok false)
    by (vm_compute; reflexivity).
  specialize (claim failed). vm_compute in claim. discriminate claim.
Qed.

(** What a run with [--extract --test] sends to the standard output: the
    two blank lines of [main], and the README between its separators. *)
Example readme_goes_to_stdout :
  printed Stdout
    (snd (main [] "Linux" None (fake_cmake (Some "my_app-1.0.0.tar.gz"))
            pick_tmp (unpack full_package) (unpack full_package) render ascii_locale
            verify_args start))
  = [""; separator; "My App"; separator; ""].
Proof. vm_compute. reflexivity. Qed.

(** ** The further properties at work on the stand-in host *)

(** No [cmake] on the search path: the configure stage raises, and the run
    ends with status 1. *)
Lemma stage_failure_is_fatal_witness :
  fst (main [] "Linux" None (fun _ _ => NoSuchProgram) pick_tmp
         (unpack full_package) (unpack full_package) render ascii_locale
         plain_args start) = Ok 1%Z.
Proof.
  erewrite (stage_failure_is_fatal [] "Linux" None (fun _ _ => NoSuchProgram)
              pick_tmp (unpack full_package) (unpack full_package) render ascii_locale
              plain_args start).
  - reflexivity.
  - left. vm_compute. reflexivity.
Defined.

(** A build step that exits with status 2: two processes, status 1. *)
Lemma build_failure_is_fatal_witness :
  let run := main [] "Linux" None failing_cmake pick_tmp
               (unpack full_package) (unpack full_package) render ascii_locale
               plain_args start in
  fst run = Ok 1%Z /\ List.length (procs (snd run)) = 2%nat.
Proof.
  cbv zeta.
  erewrite (build_failure_is_fatal [] "Linux" None failing_cmake pick_tmp
              (unpack full_package) (unpack full_package) render ascii_locale
              plain_args start).
  2: vm_compute; reflexivity.
  2: vm_compute; reflexivity.
  2: discriminate.
  split; reflexivity.
Defined.

(** Cleaning a configured build directory, then configuring: the configure
    command runs although the marker had been there. *)
Lemma clean_forces_configure_witness :
  exists_in [] disk_with_zip (Path_of "build/CMakeCache.txt") = true /\
  procs (snd ((clean_build_directory [] (Path_of "build") ;;
               configure_cmake [] (fake_cmake None) (Path_of "build")
                 Debug false) start_with_zip))
    = [mkCall (configure_command (Path_of "build") Debug false) false].
Proof.
  split; [reflexivity|].
  eapply (clean_forces_configure [] (fake_cmake None) (Path_of "build")
            Debug false start_with_zip).
  - discriminate.
  - intros [E|[]]. discriminate E.
  - reflexivity.
Defined.

(** A build directory with a zip archive only. *)
Lemma create_package_falls_back_to_zip_witness :
  exists name,
    glob_match "Linux" "*.zip" name = true /\
    fst (create_package [] "Linux" (fake_cmake None) (Path_of "build")
           "package-my_app" false start_with_zip)
      = Ok (Some (Path_div (Path_of "build") name)).
Proof.
  edestruct (create_package_falls_back_to_zip [] "Linux" (fake_cmake None)
               (Path_of "build") "package-my_app" false start_with_zip)
    with (zip := "my_app-1.0.0.zip")
    as (earlier & name & later & _ & M & _ & C).
  - vm_compute. reflexivity.
  - vm_compute. reflexivity.
  - intros name [<-|[<-|[]]]; reflexivity.
  - vm_compute. tauto.
  - reflexivity.
  - exists name. split; [exact M|]. now rewrite C.
Defined.

(** The artifact of the stand-in build is in the build directory. *)
Lemma create_package_result_witness :
  let made := create_package [] "Linux"
                (fake_cmake (Some "my_app-1.0.0.tar.gz")) (Path_of "build")
                "package-my_app" false start_with_zip in
  exists name,
    fst made = Ok (Some (Path_div (Path_of "build") name)) /\
    (glob_match "Linux" "*.tar.gz" name = true \/
     glob_match "Linux" "*.zip" name = true) /\
    exists_in [] (fs (snd made)) (Path_div (Path_of "build") name) = true.
Proof.
  cbv zeta.
  edestruct (create_package_result [] "Linux"
               (fake_cmake (Some "my_app-1.0.0.tar.gz")) (Path_of "build")
               "package-my_app" false start_with_zip)
    as (_ & name & F & M & E).
  - vm_compute. reflexivity.
  - exists name. rewrite <- F. split; [reflexivity|]. split; [exact M|].
    exact E.
Defined.

(** The two archive names of the stand-in builds have suffixes
    [extract_package] knows. *)
Lemma matched_artifact_suffix_witness :
  "Linux" <> "Windows" /\
  Path_suffix (Path_div (Path_of "build") "my_app-1.0.0.tar.gz") = ".gz".
Proof.
  assert (posix : "Linux" <> "Windows") by discriminate.
  split; [exact posix|].
  exact (proj1 (matched_artifact_suffix "Linux" (Path_of "build")
                  "my_app-1.0.0.tar.gz" posix) eq_refl).
Defined.

(** [-o build]: the copy would be onto the artifact. *)
Lemma copy_onto_itself_fails_witness :
  fst (copy_to_output [] (Path_of "build/my_app-1.0.0.zip") (Path_of "build")
         start_with_zip)
    = Raise (OSError "SameFileError" "build/my_app-1.0.0.zip") /\
  fs (snd (copy_to_output [] (Path_of "build/my_app-1.0.0.zip")
             (Path_of "build") start_with_zip)) = disk_with_zip.
Proof.
  rewrite (copy_onto_itself_fails [] (Path_of "build/my_app-1.0.0.zip")
             (Path_of "build") start_with_zip false archive_bytes
             eq_refl eq_refl).
  split; reflexivity.
Defined.


(** The README of the extracted package, on the standard output; and a
    README that is not ASCII text, in an ASCII locale. *)
Lemma readme_display_witness :
  printed Stdout
    (snd (test_package [] "Linux" ascii_locale
            (Path_of "/tmp/mcf-package-test-k3v9x2") start_unpacked))
  = [separator; "My App"; separator] /\
  printed Stdout
    (snd (test_package [] "Linux" ascii_locale
            (Path_of "/tmp/mcf-package-test-k3v9x2") start_unpacked_latin1))
  = [separator] /\
  fst (test_package [] "Linux" ascii_locale
         (Path_of "/tmp/mcf-package-test-k3v9x2") start_unpacked_latin1)
  = Raise (UnicodeDecodeError "/tmp/mcf-package-test-k3v9x2/my_app/README.txt").
Proof.
  split.
  - exact (proj1 (readme_display [] "Linux" ascii_locale
                    (Path_of "/tmp/mcf-package-test-k3v9x2")
                    (Path_of "/tmp/mcf-package-test-k3v9x2/my_app") []
                    start_unpacked package_without_bin false "My App"
                    eq_refl eq_refl eq_refl)).
  - exact (readme_display [] "Linux" ascii_locale
             (Path_of "/tmp/mcf-package-test-k3v9x2")
             (Path_of "/tmp/mcf-package-test-k3v9x2/my_app") []
             start_unpacked_latin1 latin1_package false latin1_readme
             eq_refl eq_refl eq_refl).
Defined.

(** A full run with [-o dist]: the copy is in [dist]. *)
Lemma success_means_published_witness :
  let run := main [] "Linux" None (fake_cmake (Some "my_app-1.0.0.tar.gz"))
               pick_tmp (unpack full_package) (unpack full_package) render ascii_locale
               verify_args start in
  exists name mode data dst,
    (dst = Path_div (Path_of "dist") name \/
     dst = Path_div (Path_div (Path_of "dist") name) name) /\
    node_at [] (fs (snd run)) (Path_div (Path_of "build") name)
      = Some (File mode data) /\
    node_at [] (fs (snd run)) dst = Some (File mode data).
Proof.
  cbv zeta.
  destruct (success_means_published [] "Linux" None
              (fake_cmake (Some "my_app-1.0.0.tar.gz")) pick_tmp
              (unpack full_package) (unpack full_package) render ascii_locale
              verify_args start
              (snd (main [] "Linux" None
                      (fake_cmake (Some "my_app-1.0.0.tar.gz")) pick_tmp
                      (unpack full_package) (unpack full_package) render ascii_locale
                      verify_args start))
              (Path_of "dist"))
    as (name & mode & data & dst & _ & D & S & C).
  - vm_compute. reflexivity.
  - reflexivity.
  - exists name, mode, data, dst. auto.
Defined.
